(** * Payment gateway: the settlement pipeline

    A shallow embedding of the Go packages [domain], [repository],
    [messaging], [service] and [worker], followed by the properties of the
    settlement pipeline proved about them.

    Conventions.
    - A Go [error] result is an [option error]; [None] is [nil].
    - [float64] is [spec_float], the IEEE 754 model of the standard library;
      Go's [<], [<=], [>] are [SFltb] and [SFleb], so NaN compares false.
    - [uuid.UUID] (16 bytes) is the number those bytes spell, [time.Time] is
      a number of nanoseconds.
    - The PostgreSQL table [payments] is a finite map from the primary key
      to the row; the [UNIQUE] constraint on [reference] is checked by the
      statements that the source issues. A row keeps the amount as the
      process holds it; the rounding of the column to two decimals is left
      out, no property below reads an amount back.
    - Every call that leaves the process (a SQL statement, a publish) can
      fail; whether it does is an input of the function that makes it. *)

From Stdlib Require Import ZArith Ascii String List Bool Lia.
From Stdlib Require Import Floats.SpecFloat.
From stdpp Require Import base option gmap strings list.

Local Open Scope string_scope.
Local Open Scope Z_scope.

(** ** Package [domain] *)

Module domain.

Definition UUID := N.
Definition Time := Z.

(** [type Currency string] *)
Definition Currency := string.
Definition CurrencyETB : Currency := "ETB".
Definition CurrencyUSD : Currency := "USD".

Definition Currency_IsValid (c : Currency) : bool :=
  bool_decide (c = CurrencyETB) || bool_decide (c = CurrencyUSD).

Definition Currency_GetSymbol (c : Currency) : string :=
  if bool_decide (c = CurrencyETB) then "Br"
  else if bool_decide (c = CurrencyUSD) then "$"
  else "".

(** [type PaymentStatus string] with its three constants; the column
    carries [CHECK (status IN ('PENDING', 'SUCCESS', 'FAILED'))]. *)
Inductive PaymentStatus := StatusPending | StatusSuccess | StatusFailed.

#[global] Instance PaymentStatus_eq_dec : EqDecision PaymentStatus.
Proof. solve_decision. Defined.

Definition PaymentStatus_IsTerminal (s : PaymentStatus) : bool :=
  bool_decide (s = StatusSuccess) || bool_decide (s = StatusFailed).

(** The package's error values. [errors_New] stands for a value made by
    [errors.New] at the place of use, which is equal to no sentinel;
    [SyntaxError] is what [json.Unmarshal] returns and [ChannelError] what
    the AMQP channel returns. *)
Inductive error :=
| ErrPaymentNotFound
| ErrInvalidInput
| ErrPaymentAlreadyExists
| ErrPaymentNotPending
| ErrAmountTooLarge
| ErrBusinessHours
| ErrDatabase
| errors_New (msg : string)
| SyntaxError
| ChannelError.

#[global] Instance error_eq_dec : EqDecision error.
Proof. solve_decision. Defined.

(** A Go result, a pointer and an [error], of which exactly one is set. *)
Inductive result (A : Type) :=
| Ok (a : A)
| Err (e : error).
Arguments Ok {A} a.
Arguments Err {A} e.

(** [float64] constants of the package, as mantissa and exponent. *)
Definition float_zero : spec_float := S754_zero false.
(** 100000 = 0x1.86ap+16 *)
Definition float_100000 : spec_float := S754_finite false 6871947673600000 (-36).

Module Payment.
Record t := mk {
  ID : UUID;
  Amount : spec_float;
  Currency : domain.Currency;
  Reference : string;
  Status : PaymentStatus;
  Description : string;
  CustomerName : string;
  BankCode : string;
  CreatedAt : Time;
  UpdatedAt : Time
}.

Definition set_Status (s : PaymentStatus) (p : t) : t :=
  mk (ID p) (Amount p) (Currency p) (Reference p) s (Description p)
     (CustomerName p) (BankCode p) (CreatedAt p) (UpdatedAt p).

Definition set_UpdatedAt (u : Time) (p : t) : t :=
  mk (ID p) (Amount p) (Currency p) (Reference p) (Status p) (Description p)
     (CustomerName p) (BankCode p) (CreatedAt p) u.
End Payment.

Module CreatePaymentRequest.
Record t := mk {
  Amount : spec_float;
  Currency : domain.Currency;
  Reference : string;
  Description : string;
  CustomerName : string;
  BankCode : string
}.

Definition set_Amount (a : spec_float) (r : t) : t :=
  mk a (Currency r) (Reference r) (Description r) (CustomerName r) (BankCode r).
Definition set_Currency (c : domain.Currency) (r : t) : t :=
  mk (Amount r) c (Reference r) (Description r) (CustomerName r) (BankCode r).
Definition set_Description (d : string) (r : t) : t :=
  mk (Amount r) (Currency r) (Reference r) d (CustomerName r) (BankCode r).

Definition err_amount := errors_New "amount must be greater than zero".
Definition err_currency := errors_New "currency must be ETB or USD".
Definition err_reference_short :=
  errors_New "reference must be at least 5 characters".
Definition err_reference_long := errors_New "reference is too long".
Definition err_description :=
  errors_New "description is required for large ETB payments".

(** [func (r *CreatePaymentRequest) Validate() error] *)
Definition Validate (r : t) : option error :=
  if SFleb (Amount r) float_zero then Some err_amount
  else if negb (Currency_IsValid (Currency r)) then Some err_currency
  else if (String.length (Reference r) <? 5)%nat then Some err_reference_short
  else if (50 <? String.length (Reference r))%nat then Some err_reference_long
  else if bool_decide (Currency r = CurrencyETB)
          && SFltb float_100000 (Amount r)
          && bool_decide (Description r = "")
       then Some err_description
  else None.
End CreatePaymentRequest.

End domain.

(** ** Package [messaging]: the data on the wire *)

Module messaging.
Import domain.

Record PaymentMessage := mkMessage {
  PaymentID : UUID;
  Type_ : string;
  Timestamp : Time
}.

(** [encoding/json] on [PaymentMessage] is taken as an interface:
    [json.Marshal] never fails on this struct, [json.Unmarshal] returns a
    message or a syntax error. *)
Class JSON := {
  json_Marshal : PaymentMessage → string;
  json_Unmarshal : string → option PaymentMessage
}.

(** A value of an [amqp.Table], tagged with its Go dynamic type. *)
Inductive Field :=
| FInt (n : Z)
| FInt32 (n : Z)
| FInt64 (n : Z)
| FBool (b : bool)
| FString (s : string).

(** [amqp.Table] is [map[string]interface{}]; the [nil] map is [None]. *)
Record Delivery := mkDelivery {
  Body : string;
  MessageId : string;
  Headers : option (gmap string Field)
}.

(** The client writes a Go [int] as a 32-bit field, which is read back as
    an [int32]. *)
Definition on_the_wire (f : Field) : Field :=
  match f with
  | FInt n => FInt32 n
  | other => other
  end.

(** [delivery.Ack(multiple)] and [delivery.Nack(multiple, requeue)]. The
    source passes [multiple = false] everywhere: one delivery is settled. *)
Inductive Settlement :=
| Ack (multiple : bool)
| Nack (multiple requeue : bool).

End messaging.

(** ** The world outside the process

    The table [payments], the work queue with its dead-letter queue as
    [NewRabbitMQClient] declares them, and the calls made on the store, the
    decision and the publisher, in the order they were made. *)

Module runtime.
Import domain messaging.

Inductive Event :=
| EvGetByID (id : UUID)
| EvGetByReference (ref : string)
| EvCreate (id : UUID)
| EvCommitted (id : UUID)
| EvDecision (id : UUID) (outcome : PaymentStatus)
| EvTransition (id : UUID) (target : PaymentStatus)
| EvPublish (id : UUID).

#[global] Instance Event_eq_dec : EqDecision Event.
Proof. solve_decision. Defined.

Record World := mkWorld {
  payments : gmap UUID Payment.t;
  live : list Delivery;
  dead : list Delivery;
  trace : list Event
}.

Definition set_payments (m : gmap UUID Payment.t) (w : World) : World :=
  mkWorld m (live w) (dead w) (trace w).
Definition set_live (q : list Delivery) (w : World) : World :=
  mkWorld (payments w) q (dead w) (trace w).
Definition set_dead (q : list Delivery) (w : World) : World :=
  mkWorld (payments w) (live w) q (trace w).
Definition record (e : Event) (w : World) : World :=
  mkWorld (payments w) (live w) (dead w) (trace w ++ [e]).

(** Code that acts on the world. *)
Definition M (A : Type) : Type := World → A * World.

Definition ret {A} (a : A) : M A := λ w, (a, w).
Definition bind {A B} (c : M A) (k : A → M B) : M B :=
  λ w, let (a, w') := c w in k a w'.
Definition emit (e : Event) : M unit := λ w, (tt, record e w).
Definition rows : M (gmap UUID Payment.t) := λ w, (payments w, w).
Definition commit (m : gmap UUID Payment.t) : M unit :=
  λ w, (tt, set_payments m w).

(** The broker. A published message is routed to the work queue; an
    acknowledged delivery leaves it; a delivery rejected without requeue
    is dead-lettered to the queue [<name>_dlq]; a delivery rejected with
    requeue goes back to the work queue. The broker keeps the message as
    it was published: what a consumer does to its copy is not sent back. *)
Definition broker_publish (d : Delivery) : M unit :=
  λ w, (tt, set_live (live w ++ [d]) w).

Definition broker_receive : M (option Delivery) :=
  λ w, match live w with
       | [] => (None, w)
       | d :: rest => (Some d, set_live rest w)
       end.

Definition broker_settle (d : Delivery) (s : Settlement) : M unit :=
  λ w, match s with
       | Ack _ => (tt, w)
       | Nack _ false => (tt, set_dead (dead w ++ [d]) w)
       | Nack _ true => (tt, set_live (d :: live w) w)
       end.

(** A consumer that dies holding a delivery: the broker requeues it. *)
Definition broker_requeue (d : Delivery) : M unit :=
  λ w, (tt, set_live (d :: live w) w).

End runtime.

Declare Scope sim_scope.
Delimit Scope sim_scope with sim.
Notation "x <- c ;; k" := (runtime.bind c (λ x, k))
  (at level 100, c at next level, right associativity) : sim_scope.
Notation "c ;;; k" := (runtime.bind c (λ _, k))
  (at level 100, right associativity) : sim_scope.

(** ** Package [repository] *)

Module repository.
Import domain runtime.
Local Open Scope sim_scope.

(** The row a query [WHERE reference = $1] returns, if any. *)
Definition row_with_reference (ref : string) (m : gmap UUID Payment.t)
  : option Payment.t :=
  (λ hit, (hit.2).2) <$>
    list_find (λ kv, Payment.Reference kv.2 = ref) (map_to_list m).

(** [func (r *paymentRepository) GetByID]; [fault] is a failure of the
    query other than [pgx.ErrNoRows]. *)
Definition GetByID (fault : bool) (id : UUID) : M (result Payment.t) :=
  emit (EvGetByID id) ;;;
  m <- rows ;;
  if fault then ret (Err ErrDatabase)
  else match m !! id with
       | None => ret (Err ErrPaymentNotFound)
       | Some p => ret (Ok p)
       end.

(** [func (r *paymentRepository) GetByReference] *)
Definition GetByReference (fault : bool) (ref : string)
  : M (result Payment.t) :=
  emit (EvGetByReference ref) ;;;
  m <- rows ;;
  if fault then ret (Err ErrDatabase)
  else match row_with_reference ref m with
       | None => ret (Err ErrPaymentNotFound)
       | Some p => ret (Ok p)
       end.

(** [func (r *paymentRepository) Create]:
    [INSERT ... ON CONFLICT (reference) DO NOTHING RETURNING id].
    A conflict on [reference] returns no row; a conflict on the primary
    key is an error of the statement, as is every other failure
    ([fault]): a lost connection, a violated [CHECK]. *)
Definition Create (fault : bool) (p : Payment.t) : M (option error) :=
  emit (EvCreate (Payment.ID p)) ;;;
  m <- rows ;;
  if fault then ret (Some ErrDatabase)
  else match row_with_reference (Payment.Reference p) m with
       | Some _ => ret (Some ErrPaymentAlreadyExists)
       | None =>
         match m !! Payment.ID p with
         | Some _ => ret (Some ErrDatabase)
         | None =>
           commit (<[Payment.ID p := p]> m) ;;;
           emit (EvCommitted (Payment.ID p)) ;;;
           ret None
         end
       end.

(** The two clocks an update reads: [time.Now().UTC()] in the process and
    [NOW()] in the database. *)
Record Clock := mkClock { app_now : Time; db_now : Time }.

(** The trigger [update_payments_updated_at], [BEFORE UPDATE ... FOR EACH
    ROW]: [NEW.updated_at = NOW()]. *)
Definition update_updated_at_column (clk : Clock) (new : Payment.t) : Payment.t :=
  Payment.set_UpdatedAt (db_now clk) new.

(** [UPDATE payments SET status = $1, updated_at = $2 WHERE id = $3] *)
Definition sql_update_status (clk : Clock) (status : PaymentStatus)
    (updated_at : Time) (id : UUID) (m : gmap UUID Payment.t)
  : gmap UUID Payment.t :=
  alter (λ old, update_updated_at_column clk
                  (Payment.set_UpdatedAt updated_at
                     (Payment.set_Status status old))) id m.

(** The first statement of a transaction that fails, if one does. *)
Inductive TxFault :=
| TxNoFault | TxBeginFails | TxSelectFails | TxExecFails | TxCommitFails.

#[global] Instance TxFault_eq_dec : EqDecision TxFault.
Proof. solve_decision. Defined.

(** [func (r *paymentRepository) UpdateStatusIfPending].
    [SELECT ... FOR UPDATE] holds the row's lock until the transaction
    ends, so two calls on one payment run one after the other: a call is
    one step on the world. [tx] is the table as the transaction sees it;
    it reaches the world at [Commit] only, every other exit runs the
    deferred [Rollback]. *)
Definition UpdateStatusIfPending (f : TxFault) (clk : Clock) (id : UUID)
    (newStatus : PaymentStatus) : M (bool * option error) :=
  emit (EvTransition id newStatus) ;;;
  if bool_decide (f = TxBeginFails) then ret (false, Some ErrDatabase)
  else
    tx <- rows ;;
    if bool_decide (f = TxSelectFails) then ret (false, Some ErrDatabase)
    else match Payment.Status <$> tx !! id with
    | None => ret (false, Some ErrPaymentNotFound)
    | Some currentStatus =>
      if bool_decide (currentStatus ≠ StatusPending) then ret (false, None)
      else if bool_decide (f = TxExecFails) then ret (false, Some ErrDatabase)
      else
        let tx := sql_update_status clk newStatus (app_now clk) id tx in
        if bool_decide (f = TxCommitFails) then ret (false, Some ErrDatabase)
        else commit tx ;;; ret (true, None)
    end.

(** [func (r *paymentRepository) UpdateStatus]: the update without the
    test on the current state. No row affected is [ErrPaymentNotFound].
    The settlement and creation paths do not call it, and it leaves no
    entry in the record of calls. *)
Definition UpdateStatus (fault : bool) (clk : Clock) (id : UUID)
    (status : PaymentStatus) : M (option error) :=
  m <- rows ;;
  if fault then ret (Some ErrDatabase)
  else match m !! id with
       | None => ret (Some ErrPaymentNotFound)
       | Some _ =>
         commit (sql_update_status clk status (app_now clk) id m) ;;;
         ret None
       end.

(** How a call of [List] can go wrong: [Query] returns an error; [Scan]
    fails on the row that follows [after] rows; the rows stop after
    [after] of them, which [Next] reports as the end: the loop does not read
    the error of the rows. *)
Inductive ListFault :=
| ListNoFault
| ListQueryFails
| ListScanFails (after : nat) (msg : string)
| ListBreaks (after : nat).

(** [func (r *paymentRepository) List]:
    [SELECT ... ORDER BY created_at DESC LIMIT $1 OFFSET $2].
    [scan] is the table in the order of the [ORDER BY], which PostgreSQL
    chooses among rows of equal [created_at]. PostgreSQL refuses a negative
    [LIMIT] or [OFFSET] and sends no row; the driver reports that through
    [Query] ([ListQueryFails]) or through the rows. The error of a failed
    [Scan] is returned as it is: like a value of [errors.New] it is equal
    to no sentinel. *)
Definition List (f : ListFault) (scan : list Payment.t) (limit offset : Z)
  : M (result (list Payment.t)) :=
  match f with
  | ListQueryFails => ret (Err ErrDatabase)
  | _ =>
    let sent :=
      if (limit <? 0) || (offset <? 0) then []
      else take (Z.to_nat limit) (drop (Z.to_nat offset) scan) in
    match f with
    | ListScanFails after msg =>
      if (after <? length sent)%nat then ret (Err (errors_New msg))
      else ret (Ok sent)
    | ListBreaks after => ret (Ok (take after sent))
    | _ => ret (Ok sent)
    end
  end.

(** [func (r *paymentRepository) Count]: [SELECT COUNT( * ) FROM payments] *)
Definition Count (fault : bool) : M (Z * option error) :=
  m <- rows ;;
  if fault then ret (0, Some ErrDatabase)
  else ret (Z.of_nat (size m), None).

End repository.


(** ** Package [messaging]: the publisher *)

Module publisher.
Import domain messaging runtime.
Local Open Scope sim_scope.

(** What a publish reads from outside: whether the channel fails, the
    fresh message id, the clock. *)
Record PublishEnv := mkPublishEnv {
  publish_fault : bool;
  new_message_id : string;
  publish_now : Time
}.

Section WithJSON.
Context `{JSON}.

(** [func (p *paymentPublisher) PublishPaymentCreated] *)
Definition PublishPaymentCreated (env : PublishEnv) (paymentID : UUID)
  : M (option error) :=
  emit (EvPublish paymentID) ;;;
  let message := mkMessage paymentID "payment.created" (publish_now env) in
  let body := json_Marshal message in
  let headers : gmap string Field := {[ "retry_count" := FInt 0 ]} in
  if publish_fault env then ret (Some ChannelError)
  else
    broker_publish
      (mkDelivery body (new_message_id env) (Some (on_the_wire <$> headers))) ;;;
    ret None.

End WithJSON.
End publisher.

(** ** Package [service] *)

Module service.
Import domain messaging runtime repository publisher.
Local Open Scope sim_scope.

(** 0.95 = 0x1.e666666666666p-1, 0.90 = 0x1.ccccccccccccdp-1,
    0.88 = 0x1.c28f5c28f5c29p-1, 0.92 = 0x1.d70a3d70a3d71p-1,
    0.85 = 0x1.b333333333333p-1 *)
Definition successRate (bankCode : string) : spec_float :=
  if bool_decide (bankCode = "CBE") then
    S754_finite false 8556839292003942 (-53)
  else if bool_decide (bankCode = "AWASH") then
    S754_finite false 8106479329266893 (-53)
  else if bool_decide (bankCode = "DASHEN") then
    S754_finite false 7926335344172073 (-53)
  else if bool_decide (bankCode = "ABYSSINIA") then
    S754_finite false 8286623314361713 (-53)
  else
    S754_finite false 7656119366529843 (-53).

(** What one call of [ProcessPayment] reads from outside: the failures of
    its two store calls, [rand.Float64()], the clocks. *)
Record ProcessEnv := mkProcessEnv {
  fetch_fault : bool;
  draw : spec_float;
  tx_fault : TxFault;
  clock : Clock
}.

(** [func (s *paymentService) ProcessPayment] *)
Definition ProcessPayment (env : ProcessEnv) (id : UUID) : M (option error) :=
  r <- GetByID (fetch_fault env) id ;;
  match r with
  | Err err => ret (Some err)
  | Ok payment =>
    let newStatus :=
      if SFltb (draw env) (successRate (Payment.BankCode payment))
      then StatusSuccess else StatusFailed in
    emit (EvDecision id newStatus) ;;;
    r <- UpdateStatusIfPending (tx_fault env) (clock env) id newStatus ;;
    match r with
    | (_, Some err) => ret (Some err)
    | (false, None) => ret None
    | (true, None) => ret None
    end
  end.

(** What one call of [CreatePayment] reads from outside: the failures of
    its store calls, [uuid.New()], [time.Now().UTC()], the publish. *)
Record CreateEnv := mkCreateEnv {
  lookup_fault : bool;
  new_id : UUID;
  now : Time;
  insert_fault : bool;
  publish_env : PublishEnv
}.

Definition new_payment (env : CreateEnv) (req : CreatePaymentRequest.t)
  : Payment.t :=
  Payment.mk (new_id env)
    (CreatePaymentRequest.Amount req)
    (CreatePaymentRequest.Currency req)
    (CreatePaymentRequest.Reference req)
    StatusPending
    (CreatePaymentRequest.Description req)
    (CreatePaymentRequest.CustomerName req)
    (CreatePaymentRequest.BankCode req)
    (now env) (now env).

Section WithJSON.
Context `{JSON}.

(** [func (s *paymentService) CreatePayment] *)
Definition CreatePayment (env : CreateEnv) (req : CreatePaymentRequest.t)
  : M (result Payment.t) :=
  match CreatePaymentRequest.Validate req with
  | Some err => ret (Err err)
  | None =>
    existing <- GetByReference (lookup_fault env)
                  (CreatePaymentRequest.Reference req) ;;
    match existing with
    | Ok _ => ret (Err ErrPaymentAlreadyExists)
    | Err err =>
      if bool_decide (err ≠ ErrPaymentNotFound) then ret (Err err)
      else
        let payment := new_payment env req in
        err <- Create (insert_fault env) payment ;;
        match err with
        | Some err => ret (Err err)
        | None =>
          PublishPaymentCreated (publish_env env) (Payment.ID payment) ;;;
          ret (Ok payment)
        end
    end
  end.

(** *** Two calls of [CreatePayment] at once

    A call touches the world three times: the lookup by reference, the
    insert, the publish. Another call can run between any two of them. *)
Inductive CreateCall :=
| AtLookup (req : CreatePaymentRequest.t)
| AtInsert (req : CreatePaymentRequest.t)
| AtPublish (payment : Payment.t)
| Finished (r : result Payment.t).

Definition create_step (env : CreateEnv) (c : CreateCall) : M CreateCall :=
  match c with
  | AtLookup req =>
    match CreatePaymentRequest.Validate req with
    | Some err => ret (Finished (Err err))
    | None =>
      existing <- GetByReference (lookup_fault env)
                    (CreatePaymentRequest.Reference req) ;;
      match existing with
      | Ok _ => ret (Finished (Err ErrPaymentAlreadyExists))
      | Err err =>
        if bool_decide (err ≠ ErrPaymentNotFound) then ret (Finished (Err err))
        else ret (AtInsert req)
      end
    end
  | AtInsert req =>
    let payment := new_payment env req in
    err <- Create (insert_fault env) payment ;;
    match err with
    | Some err => ret (Finished (Err err))
    | None => ret (AtPublish payment)
    end
  | AtPublish payment =>
    PublishPaymentCreated (publish_env env) (Payment.ID payment) ;;;
    ret (Finished (Ok payment))
  | Finished r => ret (Finished r)
  end.

(** A schedule says which call moves next: [true] the first, [false] the
    second. *)
Fixpoint interleave (schedule : list bool) (envA envB : CreateEnv)
    (a b : CreateCall) : M (CreateCall * CreateCall) :=
  match schedule with
  | [] => ret (a, b)
  | true :: rest =>
    a' <- create_step envA a ;; interleave rest envA envB a' b
  | false :: rest =>
    b' <- create_step envB b ;; interleave rest envA envB a b'
  end.

End WithJSON.

(** Go's [int] on this platform: 64 bits, two's complement. *)
Definition int (z : Z) : Z := (z + 2 ^ 63) mod 2 ^ 64 - 2 ^ 63.

(** [func (s *paymentService) GetPayment] *)
Definition GetPayment (fault : bool) (id : UUID) : M (result Payment.t) :=
  r <- GetByID fault id ;;
  match r with
  | Err err => ret (Err err)
  | Ok payment => ret (Ok payment)
  end.

(** [func (s *paymentService) GetPaymentByReference] *)
Definition GetPaymentByReference (fault : bool) (reference : string)
  : M (result Payment.t) :=
  r <- GetByReference fault reference ;;
  match r with
  | Err err => ret (Err err)
  | Ok payment => ret (Ok payment)
  end.

(** What a listing reads from outside: the fault it meets and the order
    in which the database returns the table. *)
Record ListEnv := mkListEnv {
  list_fault : ListFault;
  scan : list Payment.t
}.

(** [func (s *paymentService) ListPayments]; the result is the page and
    the total, which is the length of the page. *)
Definition ListPayments (env : ListEnv) (page limit : Z)
  : M (result (list Payment.t * Z)) :=
  let page := if page <? 1 then 1 else page in
  let limit := if (limit <? 1) || (100 <? limit) then 20 else limit in
  let offset := int ((page - 1) * limit) in
  r <- List (list_fault env) (scan env) limit offset ;;
  match r with
  | Err err => ret (Err err)
  | Ok payments => ret (Ok (payments, Z.of_nat (length payments)))
  end.

(** [type PaymentStatistics struct] *)
Record PaymentStatistics := mkStatistics {
  TotalPayments : Z;
  TotalAmountETB : spec_float;
  TotalAmountUSD : spec_float;
  SuccessfulPayments : Z;
  FailedPayments : Z;
  PendingPayments : Z;
  AverageAmountETB : spec_float;
  AverageAmountUSD : spec_float
}.

(** [float64] addition and division, and [float64(n)] of an [int]. *)
Definition float_add : spec_float → spec_float → spec_float := SFadd 53 1024.
Definition float_div : spec_float → spec_float → spec_float := SFdiv 53 1024.
Definition float_of_int (n : Z) : spec_float :=
  binary_normalize 53 1024 n 0 false.

(** The loop of [GetStatistics] over the payments listed: the counts by
    status, then [totalETB], [totalUSD], [etbCount], [usdCount]. *)
Record Tally := mkTally {
  successful : Z;
  failed : Z;
  pending : Z;
  totalETB : spec_float;
  totalUSD : spec_float;
  etbCount : Z;
  usdCount : Z
}.

Definition tally_step (t : Tally) (payment : Payment.t) : Tally :=
  let t :=
    match Payment.Status payment with
    | StatusSuccess =>
      mkTally (int (successful t + 1)) (failed t) (pending t)
        (totalETB t) (totalUSD t) (etbCount t) (usdCount t)
    | StatusFailed =>
      mkTally (successful t) (int (failed t + 1)) (pending t)
        (totalETB t) (totalUSD t) (etbCount t) (usdCount t)
    | StatusPending =>
      mkTally (successful t) (failed t) (int (pending t + 1))
        (totalETB t) (totalUSD t) (etbCount t) (usdCount t)
    end in
  if bool_decide (Payment.Currency payment = CurrencyETB) then
    mkTally (successful t) (failed t) (pending t)
      (float_add (totalETB t) (Payment.Amount payment)) (totalUSD t)
      (int (etbCount t + 1)) (usdCount t)
  else if bool_decide (Payment.Currency payment = CurrencyUSD) then
    mkTally (successful t) (failed t) (pending t)
      (totalETB t) (float_add (totalUSD t) (Payment.Amount payment))
      (etbCount t) (int (usdCount t + 1))
  else t.

Definition tally (payments : list Payment.t) : Tally :=
  foldl tally_step
    (mkTally 0 0 0 float_zero float_zero 0 0) payments.

(** [func (s *paymentService) GetStatistics] *)
Definition GetStatistics (env : ListEnv) : M (result PaymentStatistics) :=
  r <- List (list_fault env) (scan env) 1000 0 ;;
  match r with
  | Err err => ret (Err err)
  | Ok payments =>
    let t := tally payments in
    ret (Ok (mkStatistics
               (Z.of_nat (length payments))
               (totalETB t) (totalUSD t)
               (successful t) (failed t) (pending t)
               (if 0 <? etbCount t
                then float_div (totalETB t) (float_of_int (etbCount t))
                else float_zero)
               (if 0 <? usdCount t
                then float_div (totalUSD t) (float_of_int (usdCount t))
                else float_zero)))
  end.

End service.

(** ** Package [worker] *)

Module worker.
Import domain messaging runtime repository service.
Local Open Scope sim_scope.

(** How [processMessageWithRetry] ends: it returns an error and leaves the
    delivery's header map as [headers], or it panics. *)
Inductive Outcome :=
| Returned (err : option error) (headers : option (gmap string Field))
| Panicked.

(** [delivery.Headers["retry_count"].(int32)], or 0 *)
Definition retry_count (delivery : Delivery) : Z :=
  match Headers delivery ≫= (λ h, h !! "retry_count") with
  | Some (FInt32 retryHeader) => retryHeader
  | _ => 0
  end.

Section WithJSON.
Context `{JSON}.

(** [func (p *PaymentProcessor) processMessageWithRetry]. Writing to the
    [nil] header map panics. *)
Definition processMessageWithRetry (env : ProcessEnv) (delivery : Delivery)
  : M Outcome :=
  match json_Unmarshal (Body delivery) with
  | None => ret (Returned (Some SyntaxError) (Headers delivery))
  | Some msg =>
    let retryCount := retry_count delivery in
    if 3 <? retryCount
    then ret (Returned (Some ErrPaymentNotPending) (Headers delivery))
    else
      err <- ProcessPayment env (PaymentID msg) ;;
      match err with
      | Some err =>
        if bool_decide (err = ErrPaymentNotPending)
        then ret (Returned None (Headers delivery))
        else match Headers delivery with
             | None => ret Panicked
             | Some h =>
               ret (Returned (Some err)
                      (Some (<["retry_count" := FInt (retryCount + 1)]> h)))
             end
      | None => ret (Returned None (Headers delivery))
      end
  end.

(** What became of a delivery. *)
Inductive Handled :=
| Settled (s : Settlement)
| Crashed.

(** The body of the loop of [func (p *PaymentProcessor) worker] for one
    delivery. A panic is not recovered: the process dies and the broker
    takes the unacknowledged delivery back. *)
Definition handle (env : ProcessEnv) (delivery : Delivery) : M Handled :=
  o <- processMessageWithRetry env delivery ;;
  match o with
  | Panicked => broker_requeue delivery ;;; ret Crashed
  | Returned (Some _) _ =>
    broker_settle delivery (Nack false false) ;;;
    ret (Settled (Nack false false))
  | Returned None _ =>
    broker_settle delivery (Ack false) ;;;
    ret (Settled (Ack false))
  end.

(** [func (p *PaymentProcessor) worker]: one iteration for each element of
    [envs], until the queue is empty or the process dies. *)
Fixpoint worker (envs : list ProcessEnv) : M (list Handled) :=
  match envs with
  | [] => ret []
  | env :: rest =>
    d <- broker_receive ;;
    match d with
    | None => ret []
    | Some delivery =>
      h <- handle env delivery ;;
      match h with
      | Crashed => ret [Crashed]
      | Settled s => hs <- worker rest ;; ret (Settled s :: hs)
      end
    end
  end.

End WithJSON.
End worker.

(** ** Package [domain]: the response *)

Module presentation.
Import domain.

(** The library functions the responses and the handlers call, taken as an
    interface: [time.Time.Format], [uuid.Parse], [strconv.Atoi] (its value
    and whether it succeeded) and the decoding of a request body by
    [echo.Context.Bind]. *)
Class Library := {
  time_Format : string → Time → string;
  uuid_Parse : string → option UUID;
  strconv_Atoi : string → Z * bool;
  echo_Bind : string → option CreatePaymentRequest.t
}.

(** [time.Hour], in nanoseconds *)
Definition time_Hour : Z := 3600 * 1000000000.
Definition time_RFC3339 : string := "2006-01-02T15:04:05Z07:00".

Module PaymentResponse.
Record t := mk {
  ID : UUID;
  Amount : spec_float;
  Currency : domain.Currency;
  CurrencySymbol : string;
  Reference : string;
  Status : PaymentStatus;
  Description : string;
  CustomerName : string;
  BankCode : string;
  CreatedAt : Time;
  CreatedAtET : string
}.
End PaymentResponse.

Section WithLibrary.
Context `{Library}.

(** [func (p *Payment) ToResponse() PaymentResponse] *)
Definition ToResponse (p : Payment.t) : PaymentResponse.t :=
  PaymentResponse.mk
    (Payment.ID p)
    (Payment.Amount p)
    (Payment.Currency p)
    (Currency_GetSymbol (Payment.Currency p))
    (Payment.Reference p)
    (Payment.Status p)
    (Payment.Description p)
    (Payment.CustomerName p)
    (Payment.BankCode p)
    (Payment.CreatedAt p)
    (time_Format time_RFC3339 (Payment.CreatedAt p + 3 * time_Hour)).

End WithLibrary.
End presentation.

(** ** Package [handlers] *)

Module handlers.
Import domain messaging runtime repository publisher service presentation.
Local Open Scope sim_scope.

(** What a handler reads of the request: the path parameter [id], the
    query parameters, the body. *)
Record Request := mkRequest {
  Param_id : string;
  Query : gmap string string;
  RequestBody : string
}.

(** [c.QueryParam(name)]: the empty string when the parameter is absent *)
Definition QueryParam (c : Request) (name : string) : string :=
  default "" (Query c !! name).

(** The value a handler gives to [c.JSON]: the map or struct, field by
    field. *)
Inductive Payload :=
| ErrorBody (error : string)
| ErrorDetails (error details : string)
| CreatedBody (message : string) (payment_id : UUID) (status : PaymentStatus)
    (reference created_at ethiopian_time : string)
| PaymentBody (payment : PaymentResponse.t)
| ListBody (payments : list PaymentResponse.t) (total page limit : Z)
    (has_more : bool)
| StatisticsBody (stats : PaymentStatistics).

Record Response := mkResponse {
  StatusCode : Z;
  Payload_ : Payload
}.

Definition StatusOK : Z := 200.
Definition StatusCreated : Z := 201.
Definition StatusBadRequest : Z := 400.
Definition StatusNotFound : Z := 404.
Definition StatusConflict : Z := 409.
Definition StatusInternalServerError : Z := 500.

Section WithLibrary.
Context `{JSON} `{Library}.

(** [func (h *PaymentHandler) CreatePayment] *)
Definition CreatePayment (env : CreateEnv) (c : Request) : M Response :=
  match echo_Bind (RequestBody c) with
  | None => ret (mkResponse StatusBadRequest (ErrorBody "Invalid request body"))
  | Some req =>
    r <- service.CreatePayment env req ;;
    match r with
    | Err err =>
      if bool_decide (err = ErrInvalidInput) then
        ret (mkResponse StatusBadRequest
               (ErrorDetails "Invalid input data" "invalid input"))
      else if bool_decide (err = ErrPaymentAlreadyExists) then
        ret (mkResponse StatusConflict
               (ErrorBody "Payment with this reference already exists"))
      else if bool_decide (err = ErrBusinessHours) then
        ret (mkResponse StatusBadRequest
               (ErrorBody "Payments can only be processed during Ethiopian business hours (8:00 AM - 5:00 PM EAT)"))
      else if bool_decide (err = ErrAmountTooLarge) then
        ret (mkResponse StatusBadRequest
               (ErrorBody "Amount exceeds Ethiopian regulatory limit (1,000,000 ETB)"))
      else
        ret (mkResponse StatusInternalServerError
               (ErrorBody "Failed to create payment"))
    | Ok payment =>
      ret (mkResponse StatusCreated
             (CreatedBody
                "የክፍያ ሂደት ተጀምሯል (Payment process initiated)"
                (Payment.ID payment)
                (Payment.Status payment)
                (Payment.Reference payment)
                (time_Format "2006-01-02 15:04:05 MST" (Payment.CreatedAt payment))
                (time_Format "2006-01-02 15:04:05 EAT"
                   (Payment.CreatedAt payment + 3 * time_Hour))))
    end
  end.

(** [func (h *PaymentHandler) GetPayment] *)
Definition GetPayment (fault : bool) (c : Request) : M Response :=
  match uuid_Parse (Param_id c) with
  | None =>
    ret (mkResponse StatusBadRequest (ErrorBody "Invalid payment ID format"))
  | Some id =>
    r <- service.GetPayment fault id ;;
    match r with
    | Err err =>
      if bool_decide (err = ErrPaymentNotFound) then
        ret (mkResponse StatusNotFound (ErrorBody "Payment not found"))
      else
        ret (mkResponse StatusInternalServerError
               (ErrorBody "Failed to retrieve payment"))
    | Ok payment => ret (mkResponse StatusOK (PaymentBody (ToResponse payment)))
    end
  end.

(** [func (h *PaymentHandler) GetPaymentByReference] *)
Definition GetPaymentByReference (fault : bool) (c : Request) : M Response :=
  let reference := QueryParam c "reference" in
  if bool_decide (reference = "") then
    ret (mkResponse StatusBadRequest
           (ErrorBody "Reference parameter is required"))
  else
    r <- service.GetPaymentByReference fault reference ;;
    match r with
    | Err err =>
      if bool_decide (err = ErrPaymentNotFound) then
        ret (mkResponse StatusNotFound
               (ErrorBody ("Payment not found with reference: " +:+ reference)))
      else
        ret (mkResponse StatusInternalServerError
               (ErrorBody "Failed to retrieve payment"))
    | Ok payment => ret (mkResponse StatusOK (PaymentBody (ToResponse payment)))
    end.

(** [func (h *PaymentHandler) ListPayments]. The errors of [strconv.Atoi]
    are dropped; the response carries [page] and [limit] as they were
    parsed. *)
Definition ListPayments (env : ListEnv) (c : Request) : M Response :=
  let page := (strconv_Atoi (QueryParam c "page")).1 in
  let limit := (strconv_Atoi (QueryParam c "limit")).1 in
  r <- service.ListPayments env page limit ;;
  match r with
  | Err _ =>
    ret (mkResponse StatusInternalServerError
           (ErrorBody "Failed to list payments"))
  | Ok (payments, total) =>
    ret (mkResponse StatusOK
           (ListBody (ToResponse <$> payments) total page limit
              (int (page * limit) <? total)))
  end.

(** [func (h *PaymentHandler) GetStatistics] *)
Definition GetStatistics (env : ListEnv) (c : Request) : M Response :=
  r <- service.GetStatistics env ;;
  match r with
  | Err _ =>
    ret (mkResponse StatusInternalServerError
           (ErrorBody "Failed to get statistics"))
  | Ok stats => ret (mkResponse StatusOK (StatisticsBody stats))
  end.

End WithLibrary.
End handlers.

(** ** Notions used in the statements *)

Module notions.
Import domain messaging runtime repository publisher service worker.

(** The row of a payment after it was settled with [status]. *)
Definition settled (clk : Clock) (status : PaymentStatus) (p : Payment.t)
  : Payment.t :=
  Payment.set_UpdatedAt (db_now clk) (Payment.set_Status status p).

(** The moves of the payment state machine: stay, or leave [PENDING] for a
    terminal state. *)
Definition allowed (s s' : PaymentStatus) : Prop :=
  s' = s ∨ (s = StatusPending ∧ PaymentStatus_IsTerminal s' = true).

(** From [w] to [w'] every payment is kept, its state makes an allowed
    move, and a payment in a terminal state keeps its whole row. *)
Definition state_machine_step (w w' : World) : Prop :=
  ∀ id p, payments w !! id = Some p →
    ∃ p', payments w' !! id = Some p'
          ∧ allowed (Payment.Status p) (Payment.Status p')
          ∧ (PaymentStatus_IsTerminal (Payment.Status p) = true → p' = p).

(** A settlement attempt on a payment: one call of
    [UpdateStatusIfPending], with the fault it meets, the clocks it reads
    and the outcome it wants to write. *)
Record Attempt := mkAttempt {
  attempt_fault : TxFault;
  attempt_clock : Clock;
  attempt_target : PaymentStatus
}.

(** The attempts run in the order in which the row lock admits them. *)
Fixpoint attempt_all (id : UUID) (attempts : list Attempt)
  : M (list (bool * option error)) :=
  match attempts with
  | [] => ret []
  | a :: rest =>
    r <- UpdateStatusIfPending (attempt_fault a) (attempt_clock a) id
           (attempt_target a) ;;
    rs <- attempt_all id rest ;;
    ret (r :: rs)
  end%sim.

(** At most one payment for a reference. *)
Definition unique_references (m : gmap UUID Payment.t) : Prop :=
  ∀ i j p q, m !! i = Some p → m !! j = Some q →
    Payment.Reference p = Payment.Reference q → i = j.

(** Where a call of [CreatePayment] stands in a race for one reference:
    it has not inserted yet, it has inserted [p], or it was refused. *)
Definition waiting (req : CreatePaymentRequest.t) (c : CreateCall) : Prop :=
  c = AtLookup req ∨ c = AtInsert req.
Definition won (p : Payment.t) (c : CreateCall) : Prop :=
  c = AtPublish p ∨ c = Finished (Ok p).
Definition lost (c : CreateCall) : Prop :=
  c = Finished (Err ErrPaymentAlreadyExists).

(** What holds all along a race of two calls that started on the table
    [m0]: nobody has inserted and the table is [m0], or one call has
    inserted its payment and the other has not and will not. *)
Definition race_inv (m0 : gmap UUID Payment.t)
    (reqA reqB : CreatePaymentRequest.t) (pA pB : Payment.t)
    (a b : CreateCall) (m : gmap UUID Payment.t) : Prop :=
  (waiting reqA a ∧ waiting reqB b ∧ m = m0)
  ∨ (won pA a ∧ (waiting reqB b ∨ lost b) ∧ m = <[Payment.ID pA := pA]> m0)
  ∨ (won pB b ∧ (waiting reqA a ∨ lost a) ∧ m = <[Payment.ID pB := pB]> m0).

(** The steps a call has left at most. *)
Definition remaining (c : CreateCall) : nat :=
  match c with
  | AtLookup _ => 3
  | AtInsert _ => 2
  | AtPublish _ => 1
  | Finished _ => 0
  end.

(** The turns a schedule gives to one of the two calls. *)
Fixpoint turns (who : bool) (schedule : list bool) : nat :=
  match schedule with
  | [] => 0
  | t :: rest => (if Bool.eqb t who then 1 else 0) + turns who rest
  end.

(** What a settlement leaves of a row: everything but the state and the
    time of the last update. *)
Definition identity_of (p : Payment.t) :=
  (Payment.ID p, Payment.Amount p, Payment.Currency p, Payment.Reference p,
   Payment.Description p, Payment.CustomerName p, Payment.BankCode p,
   Payment.CreatedAt p).

(** From [w] to [w'] the table has the same keys, and every row keeps its
    identity. *)
Definition same_payments (w w' : World) : Prop :=
  ∀ id, match payments w !! id, payments w' !! id with
        | Some p, Some p' => identity_of p' = identity_of p
        | None, None => True
        | _, _ => False
        end.

(** [scan] is the table in an order that [ORDER BY created_at DESC]
    allows. *)
Definition ordered_scan (m : gmap UUID Payment.t) (scan : list Payment.t)
  : Prop :=
  scan ≡ₚ (map_to_list m).*2
  ∧ ∀ i j p q, scan !! i = Some p → scan !! j = Some q → (i ≤ j)%nat →
      Payment.CreatedAt q ≤ Payment.CreatedAt p.

(** The deliveries of [ds] that the worker dead-lettered, [hs] telling
    what became of each. *)
Definition is_rejection (h : Handled) : bool :=
  match h with
  | Settled (Nack _ false) => true
  | _ => false
  end.

Fixpoint dead_lettered (ds : list Delivery) (hs : list Handled)
  : list Delivery :=
  match ds, hs with
  | d :: ds', h :: hs' =>
    (if is_rejection h then [d] else []) ++ dead_lettered ds' hs'
  | _, _ => []
  end.

(** The deliveries that left the work queue. *)
Fixpoint settled_count (hs : list Handled) : nat :=
  match hs with
  | [] => 0
  | Settled _ :: rest => S (settled_count rest)
  | Crashed :: rest => settled_count rest
  end.

(** The payments of a list in a given state, in a given currency. *)
Definition count_status (st : PaymentStatus) (ps : list Payment.t) : Z :=
  Z.of_nat (length (filter (λ p, Payment.Status p = st) ps)).
Definition count_currency (c : Currency) (ps : list Payment.t) : Z :=
  Z.of_nat (length (filter (λ p, Payment.Currency p = c) ps)).

End notions.

(** ** Sample data

    A codec that writes a message as the binary digits of its payment id,
    and some requests, payments and deliveries, to run the code on. *)

Module samples.
Import domain messaging runtime repository publisher service worker notions.
Import presentation.

Fixpoint digits (p : positive) : string :=
  match p with
  | xH => "1"
  | xO q => digits q +:+ "0"
  | xI q => digits q +:+ "1"
  end.

Fixpoint parse_digits (acc : N) (s : string) : option N :=
  match s with
  | EmptyString => Some acc
  | String "0"%char rest => parse_digits (2 * acc)%N rest
  | String "1"%char rest => parse_digits (2 * acc + 1)%N rest
  | String _ _ => None
  end.

#[export] Instance binary_json : JSON := {|
  json_Marshal m :=
    match PaymentID m with
    | N0 => "0"
    | Npos p => digits p
    end;
  json_Unmarshal s :=
    if bool_decide (s = "") then None
    else (λ id, mkMessage id "payment.created" 0) <$> parse_digits 0%N s
|}.

(** 250000 = 0x1.e848p+17 *)
Definition float_250000 : spec_float :=
  S754_finite false 8589934592000000 (-35).
(** 1500.75 = 0x1.773p+10 *)
Definition float_1500_75 : spec_float :=
  S754_finite false 6600313016320000 (-42).

Definition large_request : CreatePaymentRequest.t :=
  CreatePaymentRequest.mk float_250000 CurrencyETB "CBE-2023-001234" ""
    "Test Customer" "CBE".

Definition small_request : CreatePaymentRequest.t :=
  CreatePaymentRequest.mk float_1500_75 CurrencyETB "CBE-2023-001234"
    "Payment for Addis Ababa coffee export" "Test Customer" "CBE".

Definition empty_world : World := mkWorld ∅ [] [] [].

Definition pending_payment : Payment.t :=
  Payment.mk 7%N float_1500_75 CurrencyETB "CBE-2023-001234" StatusPending
    "Payment for Addis Ababa coffee export" "Test Customer" "CBE" 10 10.

Definition failed_payment : Payment.t :=
  Payment.mk 2%N float_1500_75 CurrencyUSD "AWASH-2023-000002" StatusFailed
    "Software subscription" "Tech Solutions PLC" "AWASH" 5 6.

(** A table with one pending and one failed payment. *)
Definition small_world : World :=
  mkWorld (<[7%N := pending_payment]> (<[2%N := failed_payment]> ∅)) [] [] [].

Definition quiet_publish : PublishEnv := mkPublishEnv false "m-1" 10.
Definition quiet_create (id : UUID) : CreateEnv :=
  mkCreateEnv false id 10 false quiet_publish.
(** The store answers, the publish fails. *)
Definition lost_publish : CreateEnv :=
  mkCreateEnv false 9%N 10 false (mkPublishEnv true "m-9" 10).

(** 0.5 = 0x1p-1 *)
Definition float_half : spec_float :=
  S754_finite false 4503599627370496 (-53).

(** The database answers. *)
Definition calm : ProcessEnv :=
  mkProcessEnv false float_half TxNoFault (mkClock 50 51).
(** The database is down. *)
Definition outage : ProcessEnv :=
  mkProcessEnv true float_half TxNoFault (mkClock 50 51).

(** The task for a payment, as the broker delivers it. *)
Definition task (id : UUID) (retries : Z) : Delivery :=
  mkDelivery (json_Marshal (mkMessage id "payment.created" 10)) "m-1"
    (Some {[ "retry_count" := FInt32 retries ]}).

Definition garbled_task : Delivery :=
  mkDelivery "{payment_id" "m-2" (Some {[ "retry_count" := FInt32 0 ]}).

(** The table of [small_world] with one delivery on the work queue. *)
Definition queued (d : Delivery) : World :=
  mkWorld (payments small_world) [d] [] [].

(** A request whose reference is not in [small_world]. *)
Definition fresh_request : CreatePaymentRequest.t :=
  CreatePaymentRequest.mk float_1500_75 CurrencyETB "DASHEN-2023-000003"
    "Office rent" "Love" "DASHEN".

(** A task that came without headers. *)
Definition bare_task (id : UUID) : Delivery :=
  mkDelivery (json_Marshal (mkMessage id "payment.created" 10)) "m-3" None.

(** [small_world] as the database returns it, newest first. *)
Definition small_scan : ListEnv :=
  mkListEnv ListNoFault [pending_payment; failed_payment].

(** A library for the handlers: numbers and ids are read in binary, a
    time is formatted as its layout, and two request bodies decode. *)
#[export] Instance plain_library : Library := {|
  time_Format layout t := layout;
  uuid_Parse s := if bool_decide (s = "") then None else parse_digits 0%N s;
  strconv_Atoi s :=
    if bool_decide (s = "") then (0, false)
    else match parse_digits 0%N s with
         | Some n => (Z.of_N n, true)
         | None => (0, false)
         end;
  echo_Bind s :=
    if bool_decide (s = "large") then Some large_request
    else if bool_decide (s = "fresh") then Some fresh_request
    else None
|}.

Definition request (id body : string) (query : gmap string string)
  : handlers.Request :=
  handlers.mkRequest id query body.

(** A commit that fails, then FAILED, then SUCCESS. *)
Definition three_attempts : list Attempt :=
  [ mkAttempt TxCommitFails (mkClock 20 21) StatusSuccess;
    mkAttempt TxNoFault (mkClock 30 31) StatusFailed;
    mkAttempt TxNoFault (mkClock 40 41) StatusSuccess ].

End samples.


(** * Properties *)

Import domain messaging runtime repository publisher service worker.
Import samples notions.
Local Open Scope sim_scope.
Local Open Scope list_scope.

(** ** Request validation *)

Section Validation.
Import CreatePaymentRequest.

Lemma above_positive_is_positive (m : positive) (e : Z) (a : spec_float) :
  SFltb (S754_finite false m e) a = true → SFleb a float_zero = false.
Proof.
  destruct a as [s | s | | s m' e']; try discriminate.
  - destruct s; [discriminate | reflexivity].
  - destruct s; [discriminate | reflexivity].
Qed.

Lemma at_most_not_above (m : positive) (e : Z) (a : spec_float) :
  SFleb a (S754_finite false m e) = true →
  SFltb (S754_finite false m e) a = false.
Proof.
  destruct a as [s | s | | s m' e']; try reflexivity.
  - destruct s; [reflexivity | discriminate].
  - destruct s; [reflexivity |].
    unfold SFleb, SFltb, SFcompare.
    rewrite (Z.compare_antisym e' e).
    destruct (e' ?= e); cbn [CompOpp]; try congruence.
    change (Pos.compare_cont Eq) with Pos.compare.
    rewrite (Pos.compare_antisym m' m).
    destruct (m' ?= m)%positive; cbn [CompOpp]; congruence.
Qed.

Lemma Validate_basic (r : t) :
  SFleb (Amount r) float_zero = false →
  Currency_IsValid (Currency r) = true →
  (5 ≤ String.length (Reference r) ≤ 50)%nat →
  Validate r =
    if bool_decide (Currency r = CurrencyETB)
       && SFltb float_100000 (Amount r)
       && bool_decide (Description r = "")
    then Some err_description else None.
Proof.
  intros Ha Hc [Hlo Hhi]. unfold Validate. rewrite Ha, Hc. simpl.
  destruct (Nat.ltb_spec (String.length (Reference r)) 5); [lia |].
  destruct (Nat.ltb_spec 50 (String.length (Reference r))); [lia |].
  reflexivity.
Qed.

(** C10. A request in ETB above 100000 with an empty description is refused
    by [Validate], and [CreatePayment] then returns that error and leaves
    the world as it was; when its reference has a valid length the error is
    the large-payment one, and the same request with a description, or in
    USD, or with a positive amount of at most 100000, is accepted. *)
Theorem Validate_large_ETB_requires_description `{JSON} (r : t) :
  Currency r = CurrencyETB →
  SFltb float_100000 (Amount r) = true →
  Description r = "" →
  (∃ err, Validate r = Some err
          ∧ ∀ env w, CreatePayment env r w = (Err err, w))
  ∧ ((5 ≤ String.length (Reference r) ≤ 50)%nat →
     Validate r = Some err_description
     ∧ (∀ d, d ≠ "" → Validate (set_Description d r) = None)
     ∧ Validate (set_Currency CurrencyUSD r) = None
     ∧ (∀ a, SFleb a float_zero = false →
             SFleb a float_100000 = true →
             Validate (set_Amount a r) = None)).
Proof.
  intros Hc Ha Hd.
  pose proof (above_positive_is_positive _ _ _ Ha) as Hpos.
  assert (Hrule : bool_decide (Currency r = CurrencyETB)
                  && SFltb float_100000 (Amount r)
                  && bool_decide (Description r = "") = true).
  { rewrite Ha, !bool_decide_eq_true_2 by assumption. reflexivity. }
  split.
  - assert (Hsome : is_Some (Validate r)).
    { unfold Validate. rewrite Hrule.
      repeat match goal with |- is_Some (if ?b then _ else _) => destruct b end;
        eauto. }
    destruct Hsome as [err Herr]. exists err. split; [assumption |].
    intros env w. unfold CreatePayment. rewrite Herr. reflexivity.
  - intros Hlen.
    assert (Hvalid : Currency_IsValid (Currency r) = true).
    { rewrite Hc. reflexivity. }
    split; [| split; [| split]].
    + rewrite Validate_basic, Hrule by assumption. reflexivity.
    + intros d Hne. rewrite Validate_basic by assumption. simpl.
      rewrite (bool_decide_eq_false_2 (d = "")), andb_false_r by assumption.
      reflexivity.
    + rewrite Validate_basic by (assumption || reflexivity). reflexivity.
    + intros a Hgt Hle. rewrite Validate_basic by assumption. simpl.
      unfold float_100000 in *.
      rewrite (at_most_not_above _ _ _ Hle), andb_false_r. reflexivity.
Qed.

Lemma Validate_large_ETB_requires_description_witness :
  (∃ err, Validate samples.large_request = Some err
          ∧ ∀ env w,
              CreatePayment env samples.large_request w = (Err err, w))
  ∧ ((5 ≤ String.length (Reference samples.large_request) ≤ 50)%nat →
     Validate samples.large_request = Some err_description
     ∧ (∀ d, d ≠ "" →
             Validate (set_Description d samples.large_request) = None)
     ∧ Validate (set_Currency CurrencyUSD samples.large_request) = None
     ∧ (∀ a, SFleb a float_zero = false →
             SFleb a float_100000 = true →
             Validate (set_Amount a samples.large_request) = None)).
Proof.
  apply (Validate_large_ETB_requires_description samples.large_request);
    reflexivity.
Defined.

End Validation.

(** ** The store *)

Section Store.

Ltac run :=
  unfold UpdateStatusIfPending, GetByID, GetByReference, Create,
    bind, ret, emit, rows, commit; cbn.

Lemma sql_update_status_present clk st at_ id m p :
  m !! id = Some p →
  sql_update_status clk st at_ id m = <[id := settled clk st p]> m.
Proof.
  intros Hp. unfold sql_update_status. apply map_eq. intros j.
  rewrite lookup_alter, lookup_insert.
  destruct (decide (id = j)) as [<- |]; [| reflexivity].
  rewrite Hp. reflexivity.
Qed.

(** What a call does, for every fault. *)
Lemma UpdateStatusIfPending_unfold f clk id st w :
  UpdateStatusIfPending f clk id st w =
    let w0 := record (EvTransition id st) w in
    match f, payments w !! id with
    | TxBeginFails, _ | TxSelectFails, _ => ((false, Some ErrDatabase), w0)
    | _, None => ((false, Some ErrPaymentNotFound), w0)
    | _, Some p =>
      match Payment.Status p, f with
      | StatusPending, TxNoFault =>
        ((true, None),
         set_payments (<[id := settled clk st p]> (payments w)) w0)
      | StatusPending, _ => ((false, Some ErrDatabase), w0)
      | _, _ => ((false, None), w0)
      end
    end.
Proof.
  run. destruct (payments w !! id) as [p |] eqn:Hp.
  - destruct f, (Payment.Status p) eqn:Hs;
      repeat (case_bool_decide; try discriminate; try congruence; cbn);
      rewrite ?Hp; cbn; rewrite ?Hs;
      repeat (case_bool_decide; try discriminate; try congruence; cbn);
      try reflexivity.
    rewrite (sql_update_status_present _ _ _ _ _ _ Hp). reflexivity.
  - destruct f;
      repeat (case_bool_decide; try discriminate; try congruence; cbn);
      rewrite ?Hp; reflexivity.
Qed.

(** C2. Without a database fault, [UpdateStatusIfPending] on a pending
    payment writes the target state, sets [updated_at] to the time of the
    update and returns [true]; on a payment in SUCCESS or FAILED it writes
    nothing and returns [false] with no error; on an unknown id it fails
    with [ErrPaymentNotFound]. *)
Theorem UpdateStatusIfPending_cases clk id newStatus w :
  let '(r, w') := UpdateStatusIfPending TxNoFault clk id newStatus w in
  match payments w !! id with
  | None => r = (false, Some ErrPaymentNotFound) ∧ payments w' = payments w
  | Some p =>
    match Payment.Status p with
    | StatusPending =>
      r = (true, None)
      ∧ payments w' = <[id := settled clk newStatus p]> (payments w)
      ∧ Payment.Status (settled clk newStatus p) = newStatus
      ∧ Payment.UpdatedAt (settled clk newStatus p) = db_now clk
    | StatusSuccess | StatusFailed =>
      r = (false, None) ∧ payments w' = payments w
    end
  end.
Proof.
  rewrite UpdateStatusIfPending_unfold. cbn.
  destruct (payments w !! id) as [p |]; [| done].
  destruct (Payment.Status p); done.
Qed.

Lemma attempt_all_cons id a rest w :
  attempt_all id (a :: rest) w =
    let '(r, w1) := UpdateStatusIfPending (attempt_fault a) (attempt_clock a)
                      id (attempt_target a) w in
    let '(rs, w2) := attempt_all id rest w1 in
    (r :: rs, w2).
Proof.
  cbn [attempt_all]. unfold bind, ret.
  destruct (UpdateStatusIfPending _ _ _ _ w) as [r w1].
  destruct (attempt_all id rest w1) as [rs w2]. reflexivity.
Qed.

(** An attempt that meets a fault applies nothing and leaves the rows. *)
Lemma faulty_attempt_keeps_rows f clk id st w :
  f ≠ TxNoFault →
  (UpdateStatusIfPending f clk id st w).1.1 = false
  ∧ payments (UpdateStatusIfPending f clk id st w).2 = payments w.
Proof.
  intros Hf. rewrite UpdateStatusIfPending_unfold. cbn.
  destruct f; try congruence;
    destruct (payments w !! id) as [p |]; try done;
    destruct (Payment.Status p); done.
Qed.

(** An attempt on a payment that is not pending applies nothing and leaves
    the rows, whatever its fault. *)
Lemma late_attempt_keeps_rows f clk id st w q :
  payments w !! id = Some q → Payment.Status q ≠ StatusPending →
  (UpdateStatusIfPending f clk id st w).1.1 = false
  ∧ payments (UpdateStatusIfPending f clk id st w).2 = payments w.
Proof.
  intros Hq Hs. rewrite UpdateStatusIfPending_unfold. cbn. rewrite Hq.
  destruct f, (Payment.Status q); done.
Qed.

Lemma late_attempts_keep_rows id q attempts w :
  payments w !! id = Some q → Payment.Status q ≠ StatusPending →
  (attempt_all id attempts w).1.*1 = replicate (length attempts) false
  ∧ payments (attempt_all id attempts w).2 = payments w.
Proof.
  revert w. induction attempts as [| a rest IH]; intros w Hq Hs; [done |].
  rewrite attempt_all_cons.
  destruct (late_attempt_keeps_rows (attempt_fault a) (attempt_clock a) id
              (attempt_target a) w q Hq Hs) as [Hr Hrows].
  destruct (UpdateStatusIfPending _ _ _ _ w) as [r w1]. cbn in Hr, Hrows.
  destruct (IH w1) as [Hrs Hrows']; [by rewrite Hrows | done |].
  destruct (attempt_all id rest w1) as [rs w2]. cbn in *.
  rewrite Hr, Hrs, Hrows'. done.
Qed.

Lemma terminal_not_pending s :
  PaymentStatus_IsTerminal s = true → s ≠ StatusPending.
Proof. by destruct s. Qed.

(** C1. On a pending payment, among settlement attempts of which at least
    one reaches the database without a fault, exactly one returns
    [applied = true]: the first one without a fault. Every attempt before
    and after it returns [false], and after it, however many of the later
    attempts have run, the row is the one that attempt wrote. *)
Theorem first_transition_wins id p (attempts : list Attempt) w :
  payments w !! id = Some p →
  Payment.Status p = StatusPending →
  Forall (λ a, PaymentStatus_IsTerminal (attempt_target a) = true) attempts →
  Exists (λ a, attempt_fault a = TxNoFault) attempts →
  ∃ before a after,
    attempts = before ++ a :: after
    ∧ Forall (λ b, attempt_fault b ≠ TxNoFault) before
    ∧ attempt_fault a = TxNoFault
    ∧ (attempt_all id attempts w).1.*1
      = replicate (length before) false ++ true
          :: replicate (length after) false
    ∧ Payment.Status (settled (attempt_clock a) (attempt_target a) p)
      = attempt_target a
    ∧ ∀ later, later `prefix_of` after →
        payments (attempt_all id (before ++ a :: later) w).2 !! id
        = Some (settled (attempt_clock a) (attempt_target a) p).
Proof.
  intros Hp Hs Hterm Hex. revert w Hp.
  induction attempts as [| b rest IH]; intros w Hp.
  { by apply Exists_nil in Hex. }
  apply Forall_cons in Hterm as [Hb Hterm].
  destruct (decide (attempt_fault b = TxNoFault)) as [Hok | Hbad].
  - exists [], b, rest. split; [done |].
    assert (Hstep : UpdateStatusIfPending (attempt_fault b) (attempt_clock b)
                      id (attempt_target b) w
                    = ((true, None),
                       set_payments
                         (<[id := settled (attempt_clock b) (attempt_target b) p]>
                            (payments w))
                         (record (EvTransition id (attempt_target b)) w))).
    { rewrite UpdateStatusIfPending_unfold, Hok. cbn. by rewrite Hp, Hs. }
    assert (Hlate : ∀ l,
      (attempt_all id (b :: l) w).1.*1 = true :: replicate (length l) false
      ∧ payments (attempt_all id (b :: l) w).2 !! id
        = Some (settled (attempt_clock b) (attempt_target b) p)).
    { intros l. rewrite attempt_all_cons, Hstep.
      match goal with |- context [attempt_all id l ?w1] =>
        destruct (late_attempts_keep_rows id
                    (settled (attempt_clock b) (attempt_target b) p) l w1)
          as [Hrs Hrows];
          [cbn; by rewrite lookup_insert_eq
          | cbn; by apply terminal_not_pending |];
        destruct (attempt_all id l w1) as [rs w2]
      end.
      cbn in *. rewrite Hrs, Hrows. by rewrite lookup_insert_eq. }
    split; [constructor |]. split; [done |].
    split; [apply Hlate |]. split; [done |].
    intros later _. apply Hlate.
  - apply Exists_cons in Hex as [Hex | Hex]; [done |].
    destruct (faulty_attempt_keeps_rows (attempt_fault b) (attempt_clock b) id
                (attempt_target b) w Hbad) as [Hr Hrows].
    assert (Hcons : ∀ l,
      (attempt_all id (b :: l) w).1.*1
        = false :: (attempt_all id l
                      (UpdateStatusIfPending (attempt_fault b) (attempt_clock b)
                         id (attempt_target b) w).2).1.*1
      ∧ (attempt_all id (b :: l) w).2
        = (attempt_all id l
             (UpdateStatusIfPending (attempt_fault b) (attempt_clock b)
                id (attempt_target b) w).2).2).
    { intros l. rewrite attempt_all_cons.
      destruct (UpdateStatusIfPending _ _ _ _ w) as [r w1]. cbn in Hr |- *.
      destruct (attempt_all id l w1) as [rs w2]. cbn. by rewrite Hr. }
    destruct (IH Hterm Hex
                (UpdateStatusIfPending (attempt_fault b) (attempt_clock b)
                   id (attempt_target b) w).2)
      as (before & a & after & -> & Hpre & Ha & Hrs & Hst & Hfinal).
    { by rewrite Hrows. }
    exists (b :: before), a, after. split; [done |].
    split; [by constructor |]. split; [done |].
    split; [| split; [done |]].
    + destruct (Hcons (before ++ a :: after)) as [-> _]. by rewrite Hrs.
    + intros later Hlater. cbn [app].
      destruct (Hcons (before ++ a :: later)) as [_ ->]. by apply Hfinal.
Qed.

Lemma first_transition_wins_witness :
  ∃ before a after,
    samples.three_attempts = before ++ a :: after
    ∧ Forall (λ b, attempt_fault b ≠ TxNoFault) before
    ∧ attempt_fault a = TxNoFault
    ∧ (attempt_all 7%N samples.three_attempts samples.small_world).1.*1
      = replicate (length before) false ++ true
          :: replicate (length after) false
    ∧ Payment.Status
        (settled (attempt_clock a) (attempt_target a) samples.pending_payment)
      = attempt_target a
    ∧ ∀ later, later `prefix_of` after →
        payments
          (attempt_all 7%N (before ++ a :: later) samples.small_world).2 !! 7%N
        = Some (settled (attempt_clock a) (attempt_target a)
                  samples.pending_payment).
Proof.
  apply (first_transition_wins 7%N samples.pending_payment
           samples.three_attempts samples.small_world).
  - reflexivity.
  - reflexivity.
  - repeat constructor.
  - right. left. reflexivity.
Defined.

End Store.

(** ** The state machine of a payment *)

Section StateMachine.
Context `{JSON}.

Lemma allowed_refl s : allowed s s.
Proof. by left. Qed.

Lemma allowed_trans s1 s2 s3 : allowed s1 s2 → allowed s2 s3 → allowed s1 s3.
Proof.
  intros [-> | [-> Ht]] [-> | [-> Ht']]; (by left) || (by right).
Qed.

Lemma state_machine_step_same_rows w w' :
  payments w' = payments w → state_machine_step w w'.
Proof.
  intros Hrows id p Hp. exists p. rewrite Hrows.
  split; [done |]. split; [apply allowed_refl | done].
Qed.

Lemma state_machine_step_trans w1 w2 w3 :
  state_machine_step w1 w2 → state_machine_step w2 w3 →
  state_machine_step w1 w3.
Proof.
  intros H12 H23 id p Hp.
  destruct (H12 id p Hp) as (p2 & Hp2 & Ha & Hkeep).
  destruct (H23 id p2 Hp2) as (p3 & Hp3 & Ha' & Hkeep').
  exists p3. split; [done |]. split; [by eapply allowed_trans |].
  intros Ht. specialize (Hkeep Ht). subst p2. by apply Hkeep'.
Qed.

Lemma UpdateStatusIfPending_step f clk id st w :
  state_machine_step w (UpdateStatusIfPending f clk id st w).2.
Proof.
  rewrite UpdateStatusIfPending_unfold. cbn.
  destruct (payments w !! id) as [p |] eqn:Hp.
  - destruct (Payment.Status p) eqn:Hs, f;
      try (by apply state_machine_step_same_rows).
    intros j q Hq. cbn. destruct (decide (id = j)) as [<- | Hne].
    + rewrite lookup_insert_eq. exists (settled clk st p).
      assert (q = p) as -> by congruence.
      split; [done |]. rewrite Hs. split; [| done].
      destruct st; [by left | by right | by right].
    + rewrite lookup_insert_ne by done. exists q.
      split; [done |]. split; [apply allowed_refl | done].
  - destruct f; by apply state_machine_step_same_rows.
Qed.

(** What a call of [ProcessPayment] does, for every environment. *)
Lemma ProcessPayment_unfold env id w :
  ProcessPayment env id w =
    let w0 := record (EvGetByID id) w in
    if fetch_fault env then (Some ErrDatabase, w0)
    else match payments w !! id with
    | None => (Some ErrPaymentNotFound, w0)
    | Some payment =>
      let newStatus :=
        if SFltb (draw env) (successRate (Payment.BankCode payment))
        then StatusSuccess else StatusFailed in
      let '(r, w2) := UpdateStatusIfPending (tx_fault env) (clock env) id
                        newStatus (record (EvDecision id newStatus) w0) in
      (r.2, w2)
    end.
Proof.
  unfold ProcessPayment, GetByID, bind, ret, emit, rows.
  cbn -[UpdateStatusIfPending].
  destruct (fetch_fault env); [done |].
  destruct (payments w !! id) as [p |]; [| done].
  cbn -[UpdateStatusIfPending].
  destruct (UpdateStatusIfPending _ _ _ _ _) as [[[] [e |]] w2]; done.
Qed.

Lemma ProcessPayment_step env id w :
  state_machine_step w (ProcessPayment env id w).2.
Proof.
  rewrite ProcessPayment_unfold. cbn -[UpdateStatusIfPending].
  destruct (fetch_fault env); [by apply state_machine_step_same_rows |].
  destruct (payments w !! id) as [p |];
    [| by apply state_machine_step_same_rows].
  match goal with |- context [UpdateStatusIfPending ?f ?c ?i ?s ?w0] =>
    pose proof (UpdateStatusIfPending_step f c i s w0) as Hstep;
    destruct (UpdateStatusIfPending f c i s w0) as [r w2]
  end.
  cbn in *. eapply state_machine_step_trans; [| exact Hstep].
  by apply state_machine_step_same_rows.
Qed.

Lemma processMessageWithRetry_step env d w :
  state_machine_step w (processMessageWithRetry env d w).2.
Proof.
  unfold processMessageWithRetry.
  destruct (json_Unmarshal (Body d)) as [msg |];
    [| by apply state_machine_step_same_rows].
  destruct (3 <? retry_count d); [by apply state_machine_step_same_rows |].
  unfold bind.
  pose proof (ProcessPayment_step env (PaymentID msg) w) as Hstep.
  destruct (ProcessPayment env (PaymentID msg) w) as [[e |] w1]; cbn in *.
  - case_bool_decide; [done |]. by destruct (Headers d).
  - done.
Qed.

Lemma handle_step env d w : state_machine_step w (handle env d w).2.
Proof.
  unfold handle, bind.
  pose proof (processMessageWithRetry_step env d w) as Hstep.
  destruct (processMessageWithRetry env d w) as [[[e |] h |] w1]; cbn in *;
    eapply state_machine_step_trans; try exact Hstep;
    by apply state_machine_step_same_rows.
Qed.

Lemma worker_step envs w : state_machine_step w (worker envs w).2.
Proof.
  revert w. induction envs as [| env rest IH]; intros w.
  { by apply state_machine_step_same_rows. }
  cbn [worker]. unfold bind, broker_receive.
  destruct (live w) as [| d q]; [by apply state_machine_step_same_rows |].
  pose proof (handle_step env d (set_live q w)) as Hstep.
  destruct (handle env d (set_live q w)) as [[s |] w1]; cbn in *.
  - pose proof (IH w1) as Hrest.
    destruct (worker rest w1) as [hs w2]. cbn in *.
    eapply state_machine_step_trans; [| exact Hrest].
    eapply state_machine_step_trans; [| exact Hstep].
    by apply state_machine_step_same_rows.
  - eapply state_machine_step_trans; [| exact Hstep].
    by apply state_machine_step_same_rows.
Qed.

(** C3. Every operation of the settlement pipeline, whatever faults it
    meets, keeps every payment and moves its state only from PENDING to
    SUCCESS or FAILED, or not at all; a payment in a terminal state keeps
    its row. On such a payment the conditional transition and
    [ProcessPayment], when the database answers, return no error. *)
Theorem pipeline_keeps_state_machine :
  (∀ f clk id st w,
     state_machine_step w (UpdateStatusIfPending f clk id st w).2)
  ∧ (∀ env id w, state_machine_step w (ProcessPayment env id w).2)
  ∧ (∀ env d w, state_machine_step w (processMessageWithRetry env d w).2)
  ∧ (∀ env d w, state_machine_step w (handle env d w).2)
  ∧ (∀ envs w, state_machine_step w (worker envs w).2)
  ∧ (∀ clk id st w p,
       payments w !! id = Some p →
       PaymentStatus_IsTerminal (Payment.Status p) = true →
       (UpdateStatusIfPending TxNoFault clk id st w).1 = (false, None))
  ∧ (∀ env id w p,
       payments w !! id = Some p →
       PaymentStatus_IsTerminal (Payment.Status p) = true →
       fetch_fault env = false → tx_fault env = TxNoFault →
       (ProcessPayment env id w).1 = None).
Proof.
  split; [exact UpdateStatusIfPending_step |].
  split; [exact ProcessPayment_step |].
  split; [exact processMessageWithRetry_step |].
  split; [exact handle_step |].
  split; [exact worker_step |].
  split.
  - intros clk id st w p Hp Ht. rewrite UpdateStatusIfPending_unfold. cbn.
    rewrite Hp. by destruct (Payment.Status p).
  - intros env id w p Hp Ht Hfetch Htx. rewrite ProcessPayment_unfold.
    cbn -[UpdateStatusIfPending].
    rewrite Hfetch, Hp, Htx, UpdateStatusIfPending_unfold. cbn.
    rewrite Hp. by destruct (Payment.Status p).
Qed.

End StateMachine.

Lemma pipeline_keeps_state_machine_witness :
  state_machine_step samples.small_world
    (ProcessPayment samples.calm 2%N samples.small_world).2
  ∧ (ProcessPayment samples.calm 2%N samples.small_world).1 = None
  ∧ (UpdateStatusIfPending TxNoFault (mkClock 50 51) 2%N StatusSuccess
       samples.small_world).1 = (false, None).
Proof.
  destruct (pipeline_keeps_state_machine (H := samples.binary_json))
    as (_ & Hprocess & _ & _ & _ & Hnoop & Hquiet).
  split; [apply Hprocess |]. split.
  - apply (Hquiet samples.calm 2%N samples.small_world samples.failed_payment);
      reflexivity.
  - apply (Hnoop (mkClock 50 51) 2%N StatusSuccess samples.small_world
             samples.failed_payment); reflexivity.
Defined.

(** ** The worker *)

Section Worker.
Context `{JSON}.

(** One iteration of the loop on the delivery at the head of the queue. *)
Lemma worker_one env w d rest :
  live w = d :: rest →
  worker [env] w =
    let '(h, w1) := handle env d (set_live rest w) in ([h], w1).
Proof.
  intros Hlive. cbn [worker]. unfold bind, broker_receive, ret.
  rewrite Hlive. by destruct (handle env d (set_live rest w)) as [[s |] w1].
Qed.

(** C6. A delivery whose retry count exceeds 3 is rejected without requeue
    and so dead-lettered, and on the way nothing is asked of the store or of
    the decision: the rows and the record of calls are as they were. *)
Theorem exhausted_task_goes_to_dead_letter env d rest w :
  live w = d :: rest →
  3 < retry_count d →
  (processMessageWithRetry env d (set_live rest w)).2 = set_live rest w
  ∧ ∃ w', worker [env] w = ([Settled (Nack false false)], w')
          ∧ live w' = rest
          ∧ dead w' = dead w ++ [d]
          ∧ payments w' = payments w
          ∧ trace w' = trace w.
Proof.
  intros Hlive Hretry.
  assert (Hgt : (3 <? retry_count d) = true) by by apply Z.ltb_lt.
  assert (Hproc : ∃ e, processMessageWithRetry env d (set_live rest w)
                       = (Returned (Some e) (Headers d), set_live rest w)).
  { unfold processMessageWithRetry.
    destruct (json_Unmarshal (Body d)); [rewrite Hgt |]; by eexists. }
  destruct Hproc as [e Hproc]. split; [by rewrite Hproc |].
  rewrite (worker_one env w d rest Hlive). unfold handle, bind.
  rewrite Hproc. cbn. by eexists.
Qed.

(** C9. A delivery whose body does not decode is rejected without requeue
    and so dead-lettered, not put back on the work queue; its headers, and
    with them the retry count, are left as they came, and the store is not
    called. *)
Theorem undecodable_task_goes_to_dead_letter env d rest w :
  live w = d :: rest →
  json_Unmarshal (Body d) = None →
  processMessageWithRetry env d (set_live rest w)
    = (Returned (Some SyntaxError) (Headers d), set_live rest w)
  ∧ ∃ w', worker [env] w = ([Settled (Nack false false)], w')
          ∧ live w' = rest
          ∧ dead w' = dead w ++ [d]
          ∧ payments w' = payments w
          ∧ trace w' = trace w.
Proof.
  intros Hlive Hbody.
  assert (Hproc : processMessageWithRetry env d (set_live rest w)
                  = (Returned (Some SyntaxError) (Headers d), set_live rest w)).
  { unfold processMessageWithRetry. by rewrite Hbody. }
  split; [done |].
  rewrite (worker_one env w d rest Hlive). unfold handle, bind.
  rewrite Hproc. cbn. by eexists.
Qed.

(** C4. A task delivered again for a payment that is in a terminal state
    leaves the payment's row as it is, whatever happens; and when the task
    is within its retry count and the database answers, [ProcessPayment]
    returns no error although nothing was applied, and the worker
    acknowledges the delivery: it leaves the work queue and does not reach
    the dead-letter queue. *)
Theorem redelivery_for_settled_payment env d rest msg p w :
  live w = d :: rest →
  json_Unmarshal (Body d) = Some msg →
  payments w !! PaymentID msg = Some p →
  PaymentStatus_IsTerminal (Payment.Status p) = true →
  payments (worker [env] w).2 !! PaymentID msg = Some p
  ∧ (retry_count d ≤ 3 → fetch_fault env = false → tx_fault env = TxNoFault →
     (ProcessPayment env (PaymentID msg) (set_live rest w)).1 = None
     ∧ ∃ w', worker [env] w = ([Settled (Ack false)], w')
             ∧ live w' = rest
             ∧ dead w' = dead w
             ∧ payments w' = payments w).
Proof.
  intros Hlive Hbody Hp Ht. split.
  - destruct (worker_step [env] w (PaymentID msg) p Hp)
      as (p' & Hp' & _ & Hkeep).
    rewrite Hp'. f_equal. by apply Hkeep.
  - intros Hretry Hfetch Htx.
    assert (Hle : (3 <? retry_count d) = false) by by apply Z.ltb_ge.
    assert (Hpp : ∃ w1, ProcessPayment env (PaymentID msg) (set_live rest w)
                        = (None, w1)
                        ∧ live w1 = rest ∧ dead w1 = dead w
                        ∧ payments w1 = payments w).
    { rewrite ProcessPayment_unfold. cbn -[UpdateStatusIfPending].
      rewrite Hfetch, Hp, Htx, UpdateStatusIfPending_unfold. cbn.
      rewrite Hp. destruct (Payment.Status p); [done | |]; by eexists. }
    destruct Hpp as (w1 & Hpp & Hl & Hd & Hrows).
    split; [by rewrite Hpp |].
    rewrite (worker_one env w d rest Hlive).
    unfold handle, processMessageWithRetry, bind.
    rewrite Hbody, Hle, Hpp. cbn. by eexists.
Qed.

End Worker.

(** ** Creating a payment *)

Section Creation.
Context `{JSON}.

Lemma row_with_reference_None ref (m : gmap UUID Payment.t) :
  row_with_reference ref m = None ↔
  ∀ i p, m !! i = Some p → Payment.Reference p ≠ ref.
Proof.
  unfold row_with_reference. rewrite fmap_None, list_find_None, Forall_forall.
  split.
  - intros Hall i p Hp. apply (Hall (i, p)). by apply elem_of_map_to_list.
  - intros Hall [i p] Hin. apply (Hall i p). by apply elem_of_map_to_list.
Qed.

Lemma row_with_reference_Some ref (m : gmap UUID Payment.t) p :
  row_with_reference ref m = Some p →
  ∃ i, m !! i = Some p ∧ Payment.Reference p = ref.
Proof.
  unfold row_with_reference. intros Hfind.
  apply fmap_Some in Hfind as ([n [i q]] & Hfind & ->).
  apply list_find_Some in Hfind as (Hn & Href & _).
  exists i. split; [| done].
  apply elem_of_map_to_list, list_elem_of_lookup. by exists n.
Qed.

Lemma row_with_reference_is_Some ref (m : gmap UUID Payment.t) i p :
  m !! i = Some p → Payment.Reference p = ref →
  is_Some (row_with_reference ref m).
Proof.
  intros Hp Href. destruct (row_with_reference ref m) eqn:Hrow; [done |].
  by destruct (proj1 (row_with_reference_None ref m) Hrow i p Hp).
Qed.

(** What [Create] does, for every fault. *)
Lemma Create_unfold fault p w :
  Create fault p w =
    let w0 := record (EvCreate (Payment.ID p)) w in
    if fault then (Some ErrDatabase, w0)
    else match row_with_reference (Payment.Reference p) (payments w) with
    | Some _ => (Some ErrPaymentAlreadyExists, w0)
    | None =>
      match payments w !! Payment.ID p with
      | Some _ => (Some ErrDatabase, w0)
      | None =>
        (None, record (EvCommitted (Payment.ID p))
                 (set_payments (<[Payment.ID p := p]> (payments w)) w0))
      end
    end.
Proof.
  unfold Create, bind, ret, emit, rows, commit. cbn.
  destruct fault; [done |].
  destruct (row_with_reference _ _); [done |].
  by destruct (payments w !! Payment.ID p).
Qed.

(** What [PublishPaymentCreated] does. *)
Lemma PublishPaymentCreated_unfold env id w :
  PublishPaymentCreated env id w =
    let w0 := record (EvPublish id) w in
    if publish_fault env then (Some ChannelError, w0)
    else (None,
          set_live
            (live w ++
               [mkDelivery
                  (json_Marshal (mkMessage id "payment.created" (publish_now env)))
                  (new_message_id env)
                  (Some (on_the_wire <$> {[ "retry_count" := FInt 0 ]}))])
            w0).
Proof.
  unfold PublishPaymentCreated, bind, ret, emit, broker_publish. cbn.
  by destruct (publish_fault env).
Qed.

(** What [CreatePayment] does, call by call. *)
Lemma CreatePayment_unfold env req w :
  CreatePayment env req w =
    match CreatePaymentRequest.Validate req with
    | Some e => (Err e, w)
    | None =>
      let w0 := record (EvGetByReference (CreatePaymentRequest.Reference req)) w in
      if lookup_fault env then (Err ErrDatabase, w0)
      else match row_with_reference (CreatePaymentRequest.Reference req)
                   (payments w) with
      | Some _ => (Err ErrPaymentAlreadyExists, w0)
      | None =>
        let '(err, w1) := Create (insert_fault env) (new_payment env req) w0 in
        match err with
        | Some e => (Err e, w1)
        | None =>
          (Ok (new_payment env req),
           (PublishPaymentCreated (publish_env env) (new_id env) w1).2)
        end
      end
    end.
Proof.
  unfold CreatePayment.
  destruct (CreatePaymentRequest.Validate req); [done |].
  unfold bind at 1. unfold GetByReference, bind at 1 2, ret, emit, rows.
  cbn -[Create PublishPaymentCreated bind].
  destruct (lookup_fault env); [by case_bool_decide |].
  destruct (row_with_reference _ _); [done |].
  cbn -[Create PublishPaymentCreated bind].
  case_bool_decide; [done |]. unfold bind.
  destruct (Create _ _ _) as [[e |] w1]; [done |].
  cbn -[PublishPaymentCreated].
  by destruct (PublishPaymentCreated _ _ w1).
Qed.

Ltac members H :=
  repeat (apply elem_of_cons in H as [H | H]; [try discriminate |]);
  try (by apply elem_of_nil in H).

(** A list of calls without a publish has no publish to be split at. *)
Lemma no_publish_no_split (l : list Event) :
  (∀ e, e ∈ l → ∀ id, e ≠ EvPublish id) →
  ∀ before id after, l = before ++ EvPublish id :: after →
                     EvCommitted id ∈ before.
Proof.
  intros Hl before id after ->.
  destruct (Hl (EvPublish id)) with id; [| done].
  apply elem_of_app. right. by left.
Qed.

(** C8. In a call of [CreatePayment] the publish of the task comes after
    the commit of the payment's row, never before it. Once the row is
    committed the call returns the payment whether or not the publish
    succeeds: the row is in the table in state PENDING, and a failed publish
    leaves the work queue as it was. *)
Theorem publish_follows_commit env req w :
  ∃ new,
    trace (CreatePayment env req w).2 = trace w ++ new
    ∧ (∀ before id after,
         new = before ++ EvPublish id :: after → EvCommitted id ∈ before)
    ∧ (EvCommitted (new_id env) ∈ new →
       (CreatePayment env req w).1 = Ok (new_payment env req)
       ∧ payments (CreatePayment env req w).2 !! new_id env
         = Some (new_payment env req)
       ∧ Payment.Status (new_payment env req) = StatusPending
       ∧ (publish_fault (publish_env env) = true →
          live (CreatePayment env req w).2 = live w)).
Proof.
  rewrite CreatePayment_unfold.
  destruct (CreatePaymentRequest.Validate req) as [e |].
  { exists []. cbn. rewrite app_nil_r. split; [done |].
    split; [by intros [] ??? | by intros ?%elem_of_nil]. }
  cbn -[Create PublishPaymentCreated].
  destruct (lookup_fault env).
  { exists [EvGetByReference (CreatePaymentRequest.Reference req)]. cbn.
    split; [done |]. split; [| intros Hin; members Hin].
    apply no_publish_no_split. intros e Hin id. members Hin. by subst. }
  destruct (row_with_reference _ _) as [q |].
  { exists [EvGetByReference (CreatePaymentRequest.Reference req)]. cbn.
    split; [done |]. split; [| intros Hin; members Hin].
    apply no_publish_no_split. intros e Hin id. members Hin. by subst. }
  rewrite Create_unfold. cbn -[PublishPaymentCreated].
  assert (Hfail : ∃ new,
    trace w ++ [EvGetByReference (CreatePaymentRequest.Reference req)]
      ++ [EvCreate (new_id env)] = trace w ++ new
    ∧ (∀ before id after,
         new = before ++ EvPublish id :: after → EvCommitted id ∈ before)
    ∧ EvCommitted (new_id env) ∉ new).
  { exists [EvGetByReference (CreatePaymentRequest.Reference req);
            EvCreate (new_id env)].
    split; [done |]. split; [| intros Hin; members Hin].
    apply no_publish_no_split. intros e Hin id.
    members Hin; by subst. }
  destruct Hfail as (new & Htrace & Horder & Hnot).
  destruct (insert_fault env).
  { exists new. cbn. rewrite <- app_assoc. done. }
  destruct (row_with_reference _ _) as [q |].
  { exists new. cbn. rewrite <- app_assoc. done. }
  destruct (payments w !! new_id env).
  { exists new. cbn. rewrite <- app_assoc. done. }
  exists [EvGetByReference (CreatePaymentRequest.Reference req);
          EvCreate (new_id env); EvCommitted (new_id env);
          EvPublish (new_id env)].
  rewrite PublishPaymentCreated_unfold.
  destruct (publish_fault (publish_env env)); cbn;
    rewrite <- !app_assoc; (split; [done |]); split.
  1, 3: intros before id after Heq;
    do 4 (destruct before as [| ? before]; simplify_eq/=);
    [do 2 right; by left | by destruct before].
  all: intros _; rewrite lookup_insert_eq; done.
Qed.

End Creation.

Lemma publish_follows_commit_witness :
  (CreatePayment samples.lost_publish samples.small_request
     samples.empty_world).1
    = Ok (new_payment samples.lost_publish samples.small_request)
  ∧ payments (CreatePayment samples.lost_publish samples.small_request
                samples.empty_world).2 !! 9%N
    = Some (new_payment samples.lost_publish samples.small_request)
  ∧ live (CreatePayment samples.lost_publish samples.small_request
            samples.empty_world).2 = [].
Proof.
  destruct (publish_follows_commit (H := samples.binary_json)
              samples.lost_publish samples.small_request samples.empty_world)
    as (new & Htrace & _ & Hdurable).
  vm_compute in Htrace. subst new.
  destruct Hdurable as (Hr & Hrow & _ & Hlive).
  - do 2 right. left.
  - split; [exact Hr |]. split; [exact Hrow |]. by apply Hlive.
Defined.

Section Rejection.
Context `{JSON}.

(** [ProcessPayment] returns no error but those of the store. *)
Lemma ProcessPayment_errors env id w e :
  (ProcessPayment env id w).1 = Some e →
  (e = ErrDatabase ∨ e = ErrPaymentNotFound)
  ∧ payments (ProcessPayment env id w).2 = payments w.
Proof.
  rewrite ProcessPayment_unfold. cbn -[UpdateStatusIfPending].
  destruct (fetch_fault env); [intros [= <-]; by auto |].
  destruct (payments w !! id) as [p |] eqn:Hp; [| intros [= <-]; by auto].
  rewrite UpdateStatusIfPending_unfold. cbn. rewrite Hp.
  destruct (tx_fault env), (Payment.Status p); cbn; intros [= <-]; by auto.
Qed.

(** X11. A delivery that carries headers and whose processing meets an error
    of the store is rejected without requeue on its first delivery: it
    leaves the work queue for the dead-letter queue as it came, retry count
    included, and the rows are as they were. *)
Lemma store_error_dead_letters env d rest msg h e w :
  live w = d :: rest →
  json_Unmarshal (Body d) = Some msg →
  Headers d = Some h →
  retry_count d ≤ 3 →
  (ProcessPayment env (PaymentID msg) (set_live rest w)).1 = Some e →
  ∃ w', worker [env] w = ([Settled (Nack false false)], w')
        ∧ live w' = rest
        ∧ dead w' = dead w ++ [d]
        ∧ payments w' = payments w.
Proof.
  intros Hlive Hbody Hh Hretry He.
  assert (Hle : (3 <? retry_count d) = false) by by apply Z.ltb_ge.
  destruct (ProcessPayment_errors _ _ _ _ He) as [Hstore Hrows].
  assert (Hq : live (ProcessPayment env (PaymentID msg) (set_live rest w)).2
               = rest
             ∧ dead (ProcessPayment env (PaymentID msg) (set_live rest w)).2
               = dead w).
  { rewrite ProcessPayment_unfold. cbn -[UpdateStatusIfPending].
    destruct (fetch_fault env); [done |].
    destruct (payments w !! PaymentID msg) as [p |] eqn:Hp; [| done].
    rewrite UpdateStatusIfPending_unfold. cbn. rewrite Hp.
    by destruct (tx_fault env), (Payment.Status p). }
  rewrite (worker_one env w d rest Hlive).
  unfold handle, processMessageWithRetry, bind.
  rewrite Hbody, Hle.
  destruct (ProcessPayment env (PaymentID msg) (set_live rest w))
    as [r w1]. cbn in He, Hrows, Hq. subst r.
  rewrite bool_decide_eq_false_2 by (by destruct Hstore as [-> | ->]).
  rewrite Hh. cbn. eexists. split; [done |]. cbn.
  destruct Hq as [-> ->]. by rewrite Hrows.
Qed.

(** X10. A delivery that the worker rejects has changed no row: no task is
    both settled by its delivery and dead-lettered. *)
Lemma dead_lettered_delivery_settled_nothing env d w multiple requeue :
  (handle env d w).1 = Settled (Nack multiple requeue) →
  payments (handle env d w).2 = payments w.
Proof.
  unfold handle, processMessageWithRetry, bind.
  destruct (json_Unmarshal (Body d)) as [msg |]; [| done].
  destruct (3 <? retry_count d); [done |].
  pose proof (ProcessPayment_errors env (PaymentID msg) w) as Herr.
  destruct (ProcessPayment env (PaymentID msg) w) as [[e |] w1]; [| done].
  destruct (Herr e eq_refl) as [_ Hrows]. cbn in Hrows.
  case_bool_decide; [done |]. by destruct (Headers d).
Qed.

(** X9. A delivery without headers whose processing meets an error of the
    store: the write of the retry count to the [nil] header map panics, the
    worker dies without settling the delivery, and the delivery is back at
    the head of the work queue. *)
Lemma store_error_without_headers_panics env d rest msg e w :
  live w = d :: rest →
  json_Unmarshal (Body d) = Some msg →
  Headers d = None →
  (ProcessPayment env (PaymentID msg) (set_live rest w)).1 = Some e →
  ∃ w', worker [env] w = ([Crashed], w') ∧ live w' = d :: rest.
Proof.
  intros Hlive Hbody Hh He.
  destruct (ProcessPayment_errors _ _ _ _ He) as [Hstore _].
  assert (Hq : live (ProcessPayment env (PaymentID msg) (set_live rest w)).2
               = rest).
  { rewrite ProcessPayment_unfold. cbn -[UpdateStatusIfPending].
    destruct (fetch_fault env); [done |].
    destruct (payments w !! PaymentID msg) as [p |] eqn:Hp; [| done].
    rewrite UpdateStatusIfPending_unfold. cbn. rewrite Hp.
    by destruct (tx_fault env), (Payment.Status p). }
  rewrite (worker_one env w d rest Hlive).
  unfold handle, processMessageWithRetry, bind, retry_count.
  rewrite Hbody, Hh. cbn.
  destruct (ProcessPayment env (PaymentID msg) (set_live rest w))
    as [r w1]. cbn in He, Hq. subst r.
  rewrite bool_decide_eq_false_2 by (by destruct Hstore as [-> | ->]).
  cbn. eexists. split; [done |]. cbn. by rewrite Hq.
Qed.

End Rejection.

(** ** Two calls of [CreatePayment] with one reference *)

Section Race.
Context `{JSON}.

Lemma unique_references_insert (m : gmap UUID Payment.t) i p :
  unique_references m →
  row_with_reference (Payment.Reference p) m = None →
  unique_references (<[i := p]> m).
Proof.
  intros Huniq Hfree j k q r Hq Hr Href.
  pose proof (proj1 (row_with_reference_None _ _) Hfree) as Hno.
  destruct (decide (i = j)) as [<- | Hj], (decide (i = k)) as [<- | Hk];
    [done | | |].
  - rewrite lookup_insert_eq in Hq. rewrite lookup_insert_ne in Hr by done.
    simplify_eq. by destruct (Hno k r Hr).
  - rewrite lookup_insert_eq in Hr. rewrite lookup_insert_ne in Hq by done.
    simplify_eq. by destruct (Hno j q Hq).
  - rewrite lookup_insert_ne in Hq, Hr by done. by eapply Huniq.
Qed.

Lemma Create_keeps_unique_references fault p w :
  unique_references (payments w) →
  unique_references (payments (Create fault p w).2).
Proof.
  intros Huniq. rewrite Create_unfold. cbn.
  destruct fault; [done |].
  destruct (row_with_reference _ _) eqn:Hrow; [done |].
  destruct (payments w !! Payment.ID p); [done |].
  cbn. by apply unique_references_insert.
Qed.

Lemma remaining_create_step env c w :
  (remaining (create_step env c w).1 ≤ pred (remaining c))%nat.
Proof.
  destruct c as [req | req | p | r]; cbn -[Create PublishPaymentCreated].
  - destruct (CreatePaymentRequest.Validate req); [cbn; lia |].
    unfold GetByReference, bind, ret, emit, rows. cbn.
    destruct (lookup_fault env); [case_bool_decide; cbn; lia |].
    destruct (row_with_reference _ _); [cbn; lia |].
    case_bool_decide; cbn; lia.
  - unfold bind. destruct (Create _ _ w) as [[e |] w1]; cbn; lia.
  - unfold bind. destruct (PublishPaymentCreated _ _ w); cbn; lia.
  - cbn. lia.
Qed.

Lemma race_inv_swap m0 reqA reqB pA pB a b m :
  race_inv m0 reqA reqB pA pB a b m → race_inv m0 reqB reqA pB pA b a m.
Proof.
  intros [(? & ? & ?) | [(? & ? & ?) | (? & ? & ?)]].
  - by left.
  - right. by right.
  - right. by left.
Qed.

(** One step of the first call keeps [race_inv]. *)
Lemma create_step_keeps_race_inv env m0 req reqB pB a b w :
  CreatePaymentRequest.Validate req = None →
  lookup_fault env = false →
  insert_fault env = false →
  m0 !! new_id env = None →
  new_id env ≠ Payment.ID pB →
  row_with_reference (CreatePaymentRequest.Reference req) m0 = None →
  Payment.Reference pB = CreatePaymentRequest.Reference req →
  race_inv m0 req reqB (new_payment env req) pB a b (payments w) →
  race_inv m0 req reqB (new_payment env req) pB
    (create_step env a w).1 b (payments (create_step env a w).2).
Proof.
  intros Hvalid Hlookup Hinsert Hfresh Hne Hfree Href Hinv.
  assert (Htaken : is_Some (row_with_reference
                              (CreatePaymentRequest.Reference req)
                              (<[Payment.ID pB := pB]> m0))).
  { eapply row_with_reference_is_Some; [apply lookup_insert_eq | done]. }
  destruct Hinv as [(Ha & Hb & Hm) | [(Ha & Hb & Hm) | (Hb & Ha & Hm)]].
  - (* nobody has inserted *)
    destruct Ha as [-> | ->]; cbn -[Create].
    + rewrite Hvalid. unfold GetByReference, bind, ret, emit, rows. cbn.
      rewrite Hlookup, Hm, Hfree. case_bool_decide; [done |].
      cbn. left. split; [by right | done].
    + unfold bind. rewrite Create_unfold, Hinsert. cbn.
      rewrite Hm, Hfree, Hfresh. cbn. right. left.
      split; [by left |]. split; [by left | done].
  - (* this call has inserted *)
    destruct Ha as [-> | ->]; cbn -[PublishPaymentCreated].
    + unfold bind. rewrite PublishPaymentCreated_unfold.
      destruct (publish_fault (publish_env env)); cbn;
        right; left; (split; [by right | done]).
    + right. left. split; [by right | done].
  - (* the other call has inserted *)
    destruct Ha as [[-> | ->] | ->]; cbn -[Create].
    + rewrite Hvalid. unfold GetByReference, bind, ret, emit, rows. cbn.
      rewrite Hlookup, Hm. destruct Htaken as [q ->]. cbn.
      right. right. split; [done |]. split; [by right | done].
    + unfold bind. rewrite Create_unfold, Hinsert. cbn.
      rewrite Hm. destruct Htaken as [q ->]. cbn.
      right. right. split; [done |]. split; [by right | done].
    + right. right. split; [done |]. split; [by right | done].
Qed.

Section TwoCalls.
Variables (envA envB : CreateEnv) (reqA reqB : CreatePaymentRequest.t).
Variable m0 : gmap UUID Payment.t.
Hypothesis validA : CreatePaymentRequest.Validate reqA = None.
Hypothesis validB : CreatePaymentRequest.Validate reqB = None.
Hypothesis same_reference :
  CreatePaymentRequest.Reference reqA = CreatePaymentRequest.Reference reqB.
Hypothesis lookupA : lookup_fault envA = false.
Hypothesis lookupB : lookup_fault envB = false.
Hypothesis insertA : insert_fault envA = false.
Hypothesis insertB : insert_fault envB = false.
Hypothesis freshA : m0 !! new_id envA = None.
Hypothesis freshB : m0 !! new_id envB = None.
Hypothesis distinct : new_id envA ≠ new_id envB.
Hypothesis free : row_with_reference (CreatePaymentRequest.Reference reqA) m0 = None.

Let pA := new_payment envA reqA.
Let pB := new_payment envB reqB.

Lemma interleave_keeps_race_inv schedule a b w :
  race_inv m0 reqA reqB pA pB a b (payments w) →
  race_inv m0 reqA reqB pA pB
    (interleave schedule envA envB a b w).1.1
    (interleave schedule envA envB a b w).1.2
    (payments (interleave schedule envA envB a b w).2)
  ∧ (remaining (interleave schedule envA envB a b w).1.1
     ≤ remaining a - turns true schedule)%nat
  ∧ (remaining (interleave schedule envA envB a b w).1.2
     ≤ remaining b - turns false schedule)%nat.
Proof.
  revert a b w. induction schedule as [| [] rest IH]; intros a b w Hinv.
  - cbn. split; [done |]. lia.
  - cbn [interleave turns Bool.eqb]. unfold bind.
    pose proof (remaining_create_step envA a w) as Hrem.
    assert (Hstep : race_inv m0 reqA reqB pA pB (create_step envA a w).1 b
                      (payments (create_step envA a w).2)).
    { by apply create_step_keeps_race_inv. }
    destruct (create_step envA a w) as [a' w1]. cbn in Hrem, Hstep.
    destruct (IH a' b w1 Hstep) as (Hinv' & Ha & Hb).
    split; [done |]. split; lia.
  - cbn [interleave turns Bool.eqb]. unfold bind.
    pose proof (remaining_create_step envB b w) as Hrem.
    assert (Hstep : race_inv m0 reqA reqB pA pB a (create_step envB b w).1
                      (payments (create_step envB b w).2)).
    { apply race_inv_swap, create_step_keeps_race_inv; try done.
      - by rewrite <- same_reference.
      - by apply race_inv_swap. }
    destruct (create_step envB b w) as [b' w1]. cbn in Hrem, Hstep.
    destruct (IH a b' w1 Hstep) as (Hinv' & Ha & Hb).
    split; [done |]. split; lia.
Qed.

(** Every schedule that lets both calls finish has one winner. *)
Lemma race_has_one_winner schedule w :
  payments w = m0 →
  (3 ≤ turns true schedule)%nat →
  (3 ≤ turns false schedule)%nat →
  ((interleave schedule envA envB (AtLookup reqA) (AtLookup reqB) w).1
     = (Finished (Ok pA), Finished (Err ErrPaymentAlreadyExists))
   ∧ payments
       (interleave schedule envA envB (AtLookup reqA) (AtLookup reqB) w).2
     = <[new_id envA := pA]> m0)
  ∨ ((interleave schedule envA envB (AtLookup reqA) (AtLookup reqB) w).1
       = (Finished (Err ErrPaymentAlreadyExists), Finished (Ok pB))
     ∧ payments
         (interleave schedule envA envB (AtLookup reqA) (AtLookup reqB) w).2
       = <[new_id envB := pB]> m0).
Proof.
  intros Hm HtA HtB.
  destruct (interleave_keeps_race_inv schedule (AtLookup reqA) (AtLookup reqB) w)
    as (Hinv & Ha & Hb).
  { left. rewrite Hm. split; [by left |]. split; [by left | done]. }
  destruct (interleave schedule envA envB (AtLookup reqA) (AtLookup reqB) w)
    as [[a b] w']. cbn in *.
  destruct a as [? | ? | ? | ra]; cbn in Ha; try lia.
  destruct b as [? | ? | ? | rb]; cbn in Hb; try lia.
  destruct Hinv as [([[=] | [=]] & _) | [(Hwon & Hlost & ->) | (Hwon & Hlost & ->)]].
  - left. destruct Hwon as [[=] | [= ->]].
    destruct Hlost as [[[=] | [=]] | [= ->]]. done.
  - right. destruct Hwon as [[=] | [= ->]].
    destruct Hlost as [[[=] | [=]] | [= ->]]. done.
Qed.

End TwoCalls.

(** The three steps of a call, run with nothing in between, are
    [CreatePayment]. *)
Lemma create_steps_are_CreatePayment env req w :
  (c1 <- create_step env (AtLookup req) ;;
   c2 <- create_step env c1 ;;
   create_step env c2) w
  = (Finished (CreatePayment env req w).1, (CreatePayment env req w).2).
Proof.
  rewrite CreatePayment_unfold. cbn [create_step].
  destruct (CreatePaymentRequest.Validate req); [done |].
  unfold GetByReference, emit, rows, bind, ret.
  cbn -[Create PublishPaymentCreated].
  destruct (lookup_fault env); [by case_bool_decide |].
  destruct (row_with_reference _ _); [done |].
  case_bool_decide; [done |]. cbn -[Create PublishPaymentCreated].
  unfold bind, ret.
  destruct (Create _ _ _) as [[e |] w1]; [done |].
  cbn -[PublishPaymentCreated]. unfold bind, ret.
  by destruct (PublishPaymentCreated _ _ w1).
Qed.

(** C7. [Create] refuses a payment whose reference is taken with
    [ErrPaymentAlreadyExists] and writes nothing, in one statement; it keeps
    the references of the table unique. [CreatePayment] inserts the new
    payment in state PENDING when the reference is free and returns
    [ErrPaymentAlreadyExists] when it is taken. Of two calls of
    [CreatePayment] with one free reference, however their steps are
    interleaved, exactly one returns its payment, the other returns
    [ErrPaymentAlreadyExists], and the table gains the winner's row only. *)
Theorem one_payment_per_reference :
  (∀ fault p w,
     unique_references (payments w) →
     unique_references (payments (Create fault p w).2))
  ∧ (∀ p w q,
       row_with_reference (Payment.Reference p) (payments w) = Some q →
       (Create false p w).1 = Some ErrPaymentAlreadyExists
       ∧ payments (Create false p w).2 = payments w)
  ∧ (∀ env req w,
       CreatePaymentRequest.Validate req = None →
       lookup_fault env = false → insert_fault env = false →
       row_with_reference (CreatePaymentRequest.Reference req) (payments w)
         = None →
       payments w !! new_id env = None →
       (CreatePayment env req w).1 = Ok (new_payment env req)
       ∧ payments (CreatePayment env req w).2
         = <[new_id env := new_payment env req]> (payments w)
       ∧ Payment.Status (new_payment env req) = StatusPending)
  ∧ (∀ env req w q,
       CreatePaymentRequest.Validate req = None →
       lookup_fault env = false →
       row_with_reference (CreatePaymentRequest.Reference req) (payments w)
         = Some q →
       (CreatePayment env req w).1 = Err ErrPaymentAlreadyExists
       ∧ payments (CreatePayment env req w).2 = payments w)
  ∧ (∀ envA envB reqA reqB schedule w,
       CreatePaymentRequest.Validate reqA = None →
       CreatePaymentRequest.Validate reqB = None →
       CreatePaymentRequest.Reference reqA
         = CreatePaymentRequest.Reference reqB →
       lookup_fault envA = false → lookup_fault envB = false →
       insert_fault envA = false → insert_fault envB = false →
       payments w !! new_id envA = None →
       payments w !! new_id envB = None →
       new_id envA ≠ new_id envB →
       row_with_reference (CreatePaymentRequest.Reference reqA) (payments w)
         = None →
       unique_references (payments w) →
       (3 ≤ turns true schedule)%nat →
       (3 ≤ turns false schedule)%nat →
       unique_references
         (payments
            (interleave schedule envA envB (AtLookup reqA) (AtLookup reqB) w).2)
       ∧ (((interleave schedule envA envB (AtLookup reqA) (AtLookup reqB) w).1
             = (Finished (Ok (new_payment envA reqA)),
                Finished (Err ErrPaymentAlreadyExists))
           ∧ payments
               (interleave schedule envA envB (AtLookup reqA) (AtLookup reqB)
                  w).2
             = <[new_id envA := new_payment envA reqA]> (payments w))
          ∨ ((interleave schedule envA envB (AtLookup reqA) (AtLookup reqB) w).1
               = (Finished (Err ErrPaymentAlreadyExists),
                  Finished (Ok (new_payment envB reqB)))
             ∧ payments
                 (interleave schedule envA envB (AtLookup reqA) (AtLookup reqB)
                    w).2
               = <[new_id envB := new_payment envB reqB]> (payments w)))).
Proof.
  split; [exact Create_keeps_unique_references |].
  split.
  { intros p w q Hq. rewrite Create_unfold. cbn. by rewrite Hq. }
  split.
  { intros env req w Hvalid Hlookup Hinsert Hfree Hfresh.
    rewrite CreatePayment_unfold, Hvalid. cbn -[Create PublishPaymentCreated].
    rewrite Hlookup, Hfree, Create_unfold, Hinsert. cbn -[PublishPaymentCreated].
    rewrite Hfree, Hfresh, PublishPaymentCreated_unfold.
    by destruct (publish_fault (publish_env env)). }
  split.
  { intros env req w q Hvalid Hlookup Hq.
    rewrite CreatePayment_unfold, Hvalid. cbn -[Create PublishPaymentCreated].
    by rewrite Hlookup, Hq. }
  intros envA envB reqA reqB schedule w HvA HvB Href HlA HlB HiA HiB HfA HfB
    Hne Hfree Huniq HtA HtB.
  destruct (race_has_one_winner envA envB reqA reqB (payments w)
              HvA HvB Href HlA HlB HiA HiB HfA HfB Hne Hfree schedule w
              eq_refl HtA HtB) as [[Hr Hm] | [Hr Hm]].
  - split; [| by left]. rewrite Hm. by apply unique_references_insert.
  - split; [| by right]. rewrite Hm. apply unique_references_insert; [done |].
    cbn. by rewrite <- Href.
Qed.

End Race.

(** ** The code on the sample data *)

Lemma small_world_unique_references :
  unique_references (payments samples.small_world).
Proof.
  apply unique_references_insert; [| by vm_compute].
  apply unique_references_insert; [| by vm_compute].
  intros i j p q Hp. by rewrite lookup_empty in Hp.
Qed.

Lemma one_payment_per_reference_witness :
  let race :=
    interleave [true; false; false; true; true; false]
      (samples.quiet_create 11%N) (samples.quiet_create 12%N)
      (AtLookup samples.fresh_request) (AtLookup samples.fresh_request)
      samples.small_world in
  unique_references (payments race.2)
  ∧ ((race.1
        = (Finished (Ok (new_payment (samples.quiet_create 11%N)
                           samples.fresh_request)),
           Finished (Err ErrPaymentAlreadyExists))
      ∧ payments race.2
        = <[11%N := new_payment (samples.quiet_create 11%N)
                      samples.fresh_request]>
            (payments samples.small_world))
     ∨ (race.1
          = (Finished (Err ErrPaymentAlreadyExists),
             Finished (Ok (new_payment (samples.quiet_create 12%N)
                             samples.fresh_request)))
        ∧ payments race.2
          = <[12%N := new_payment (samples.quiet_create 12%N)
                        samples.fresh_request]>
              (payments samples.small_world))).
Proof.
  destruct (one_payment_per_reference (H := samples.binary_json))
    as (_ & _ & _ & _ & Hrace).
  apply (Hrace (samples.quiet_create 11%N) (samples.quiet_create 12%N)
           samples.fresh_request samples.fresh_request
           [true; false; false; true; true; false] samples.small_world);
    try reflexivity.
  - discriminate.
  - apply small_world_unique_references.
Defined.

Lemma exhausted_task_goes_to_dead_letter_witness :
  (processMessageWithRetry samples.calm (samples.task 7%N 4)
     (set_live [] (samples.queued (samples.task 7%N 4)))).2
    = set_live [] (samples.queued (samples.task 7%N 4))
  ∧ ∃ w', worker [samples.calm] (samples.queued (samples.task 7%N 4))
          = ([Settled (Nack false false)], w')
          ∧ live w' = []
          ∧ dead w' = [] ++ [samples.task 7%N 4]
          ∧ payments w' = payments (samples.queued (samples.task 7%N 4))
          ∧ trace w' = [].
Proof.
  apply (exhausted_task_goes_to_dead_letter (H := samples.binary_json)
           samples.calm (samples.task 7%N 4) []
           (samples.queued (samples.task 7%N 4))).
  - reflexivity.
  - reflexivity.
Defined.

Lemma undecodable_task_goes_to_dead_letter_witness :
  processMessageWithRetry samples.calm samples.garbled_task
    (set_live [] (samples.queued samples.garbled_task))
    = (Returned (Some SyntaxError) (Headers samples.garbled_task),
       set_live [] (samples.queued samples.garbled_task))
  ∧ ∃ w', worker [samples.calm] (samples.queued samples.garbled_task)
          = ([Settled (Nack false false)], w')
          ∧ live w' = []
          ∧ dead w' = [] ++ [samples.garbled_task]
          ∧ payments w' = payments (samples.queued samples.garbled_task)
          ∧ trace w' = [].
Proof.
  apply (undecodable_task_goes_to_dead_letter (H := samples.binary_json)
           samples.calm samples.garbled_task []
           (samples.queued samples.garbled_task)).
  - reflexivity.
  - reflexivity.
Defined.

Lemma redelivery_for_settled_payment_witness :
  payments (worker [samples.calm] (samples.queued (samples.task 2%N 0))).2
    !! 2%N = Some samples.failed_payment
  ∧ (ProcessPayment samples.calm 2%N
       (set_live [] (samples.queued (samples.task 2%N 0)))).1 = None
  ∧ ∃ w', worker [samples.calm] (samples.queued (samples.task 2%N 0))
          = ([Settled (Ack false)], w')
          ∧ live w' = []
          ∧ dead w' = []
          ∧ payments w' = payments (samples.queued (samples.task 2%N 0)).
Proof.
  destruct (redelivery_for_settled_payment (H := samples.binary_json)
              samples.calm (samples.task 2%N 0) []
              (mkMessage 2%N "payment.created" 0) samples.failed_payment
              (samples.queued (samples.task 2%N 0)))
    as [Hrow Hack]; try reflexivity.
  split; [exact Hrow |]. apply Hack.
  - discriminate.
  - reflexivity.
  - reflexivity.
Defined.

(** C5. The payment of [fresh_request] is created and its task published;
    the store is then down at every delivery. The worker rejects the task
    without requeue on the first delivery: it is delivered once, not three
    times, and lies in the dead-letter queue with the retry count 0 it was
    published with, while the payment is still PENDING. *)
Theorem store_outage_is_not_retried :
  let created :=
    (CreatePayment (samples.quiet_create 11%N) samples.fresh_request
       samples.small_world).2 in
  let after :=
    worker [samples.outage; samples.outage; samples.outage; samples.outage]
      created in
  length (live created) = 1%nat
  ∧ after.1 = [Settled (Nack false false)]
  ∧ live after.2 = []
  ∧ dead after.2 = live created
  ∧ retry_count <$> dead after.2 = [0]
  ∧ Payment.Status <$> payments after.2 !! 11%N = Some StatusPending.
Proof. vm_compute. done. Qed.

(** * More of the code *)

(** ** The store: transactions, lookups, the unconditional update *)

Section StoreMore.

(** X1. [UpdateStatusIfPending] returns [true] exactly when it meets no
    fault and the payment is there and pending, and then without an error;
    in every other case, an error or a payment already settled, the
    deferred rollback leaves the table as it was. The queues are never
    touched and the call is recorded once. *)
Theorem UpdateStatusIfPending_applies_or_rolls_back f clk id st w :
  ((UpdateStatusIfPending f clk id st w).1.1 = true ↔
   f = TxNoFault
   ∧ ∃ p, payments w !! id = Some p ∧ Payment.Status p = StatusPending)
  ∧ ((UpdateStatusIfPending f clk id st w).1.1 = true →
     (UpdateStatusIfPending f clk id st w).1.2 = None)
  ∧ ((UpdateStatusIfPending f clk id st w).1.1 = false →
     payments (UpdateStatusIfPending f clk id st w).2 = payments w)
  ∧ live (UpdateStatusIfPending f clk id st w).2 = live w
  ∧ dead (UpdateStatusIfPending f clk id st w).2 = dead w
  ∧ trace (UpdateStatusIfPending f clk id st w).2
    = trace w ++ [EvTransition id st].
Proof.
  rewrite UpdateStatusIfPending_unfold. cbn.
  destruct (payments w !! id) as [p |] eqn:Hp.
  - destruct f, (Payment.Status p) eqn:Hs; cbn;
      (split; [split; [try done | intros [? (q & [= <-] & ?)]; congruence] |]);
      try done.
    intros _. split; [done |]. by exists p.
  - destruct f; cbn;
      (split; [split; [done | by intros [? (q & ? & ?)]] | done]).
Qed.

Lemma settled_identity clk st p : identity_of (settled clk st p) = identity_of p.
Proof. reflexivity. Qed.

Lemma same_payments_refl w w' : payments w' = payments w → same_payments w w'.
Proof. intros Hrows id. rewrite Hrows. by destruct (payments w !! id). Qed.

Lemma same_payments_trans w1 w2 w3 :
  same_payments w1 w2 → same_payments w2 w3 → same_payments w1 w3.
Proof.
  intros H12 H23 id. specialize (H12 id). specialize (H23 id).
  destruct (payments w1 !! id), (payments w2 !! id), (payments w3 !! id);
    try done. congruence.
Qed.

Lemma UpdateStatusIfPending_same_payments f clk id st w :
  same_payments w (UpdateStatusIfPending f clk id st w).2.
Proof.
  rewrite UpdateStatusIfPending_unfold. cbn.
  destruct (payments w !! id) as [p |] eqn:Hp.
  - destruct (Payment.Status p), f; try (by apply same_payments_refl).
    intros j. cbn. destruct (decide (id = j)) as [<- | Hne].
    + by rewrite lookup_insert_eq, Hp.
    + rewrite lookup_insert_ne by done. by destruct (payments w !! j).
  - destruct f; by apply same_payments_refl.
Qed.

Lemma same_payments_unique_references w w' :
  same_payments w w' →
  unique_references (payments w) → unique_references (payments w').
Proof.
  intros Hsame Huniq i j p q Hp Hq Href.
  pose proof (Hsame i) as Hi. pose proof (Hsame j) as Hj.
  rewrite Hp in Hi. rewrite Hq in Hj.
  destruct (payments w !! i) as [p0 |] eqn:Hp0; [| done].
  destruct (payments w !! j) as [q0 |] eqn:Hq0; [| done].
  apply (Huniq i j p0 q0 Hp0 Hq0).
  unfold identity_of in Hi, Hj. congruence.
Qed.

End StoreMore.

Section PipelineFrame.
Context `{JSON}.

Lemma ProcessPayment_same_payments env id w :
  same_payments w (ProcessPayment env id w).2.
Proof.
  rewrite ProcessPayment_unfold. cbn -[UpdateStatusIfPending].
  destruct (fetch_fault env); [by apply same_payments_refl |].
  destruct (payments w !! id) as [p |]; [| by apply same_payments_refl].
  match goal with |- context [UpdateStatusIfPending ?f ?c ?i ?s ?w0] =>
    pose proof (UpdateStatusIfPending_same_payments f c i s w0) as Hstep;
    destruct (UpdateStatusIfPending f c i s w0) as [r w2]
  end.
  cbn in *. eapply same_payments_trans; [| exact Hstep].
  by apply same_payments_refl.
Qed.

Lemma handle_same_payments env d w : same_payments w (handle env d w).2.
Proof.
  unfold handle, processMessageWithRetry, bind.
  destruct (json_Unmarshal (Body d)) as [msg |];
    [| by apply same_payments_refl].
  destruct (3 <? retry_count d); [by apply same_payments_refl |].
  pose proof (ProcessPayment_same_payments env (PaymentID msg) w) as Hstep.
  destruct (ProcessPayment env (PaymentID msg) w) as [[e |] w1]; cbn in *.
  - case_bool_decide; [| destruct (Headers d)];
      (eapply same_payments_trans; [exact Hstep |]);
      by apply same_payments_refl.
  - eapply same_payments_trans; [exact Hstep |]. by apply same_payments_refl.
Qed.

Lemma worker_same_payments envs w : same_payments w (worker envs w).2.
Proof.
  revert w. induction envs as [| env rest IH]; intros w.
  { by apply same_payments_refl. }
  cbn [worker]. unfold bind, broker_receive.
  destruct (live w) as [| d q]; [by apply same_payments_refl |].
  pose proof (handle_same_payments env d (set_live q w)) as Hstep.
  destruct (handle env d (set_live q w)) as [[s |] w1]; cbn in *.
  - pose proof (IH w1) as Hrest.
    destruct (worker rest w1) as [hs w2]. cbn in *.
    eapply same_payments_trans; [| exact Hrest].
    eapply same_payments_trans; [| exact Hstep].
    by apply same_payments_refl.
  - eapply same_payments_trans; [| exact Hstep]. by apply same_payments_refl.
Qed.

(** X2. The settlement pipeline never inserts or deletes a payment and
    never changes a payment's id, amount, currency, reference, description,
    customer, bank code or creation time: the conditional transition,
    [ProcessPayment], the loop body and the worker loop, under every fault,
    leave the table with the same keys and every row with the same
    identity. *)
Theorem pipeline_changes_state_only f clk id st env d envs w :
  same_payments w (UpdateStatusIfPending f clk id st w).2
  ∧ same_payments w (ProcessPayment env id w).2
  ∧ same_payments w (handle env d w).2
  ∧ same_payments w (worker envs w).2.
Proof.
  split; [apply UpdateStatusIfPending_same_payments |].
  split; [apply ProcessPayment_same_payments |].
  split; [apply handle_same_payments | apply worker_same_payments].
Qed.

(** X3. A table with at most one payment for a reference stays so through
    any run of the worker. *)
Theorem worker_keeps_unique_references envs w :
  unique_references (payments w) →
  unique_references (payments (worker envs w).2).
Proof.
  apply same_payments_unique_references, worker_same_payments.
Qed.

End PipelineFrame.

Lemma worker_keeps_unique_references_witness :
  unique_references
    (payments (worker [samples.calm] (samples.queued (samples.task 7%N 0))).2).
Proof.
  apply (worker_keeps_unique_references (H := samples.binary_json)
           [samples.calm] (samples.queued (samples.task 7%N 0))).
  apply small_world_unique_references.
Defined.

(** ** Lookups after an insert *)

Section Lookups.
Context `{JSON}.



End Lookups.


Section StoreQueries.

(** X5. When the store answers, [GetByReference] returns a row of the
    table that carries the reference, the only such row if references are
    unique, and [ErrPaymentNotFound] exactly when no row carries it; it
    changes neither the table nor the queues. *)
Theorem GetByReference_finds_the_row ref w :
  match (GetByReference false ref w).1 with
  | Ok p =>
    (∃ id, payments w !! id = Some p) ∧ Payment.Reference p = ref
    ∧ (unique_references (payments w) →
       ∀ j q, payments w !! j = Some q → Payment.Reference q = ref → q = p)
  | Err e =>
    e = ErrPaymentNotFound
    ∧ ∀ id p, payments w !! id = Some p → Payment.Reference p ≠ ref
  end
  ∧ payments (GetByReference false ref w).2 = payments w
  ∧ live (GetByReference false ref w).2 = live w
  ∧ dead (GetByReference false ref w).2 = dead w.
Proof.
  unfold GetByReference, bind, ret, emit, rows. cbn.
  destruct (row_with_reference ref (payments w)) as [p |] eqn:Hrow; cbn.
  - split; [| done].
    destruct (row_with_reference_Some _ _ _ Hrow) as (i & Hi & Href).
    split; [by exists i |]. split; [done |].
    intros Huniq j q Hq Hrefq.
    assert (j = i) as -> by (apply (Huniq j i q p); congruence).
    congruence.
  - split; [| done]. split; [done |].
    by apply row_with_reference_None.
Qed.

(** X6. When the store answers, [UpdateStatus] on a payment of the table
    writes the state whatever the current one is. On a pending payment it
    writes the very table that the conditional transition writes, and the
    move is one of the state machine; on a settled payment asked to change
    state it overwrites the outcome, which the state machine forbids. *)
Theorem UpdateStatus_overwrites clk id st w p :
  payments w !! id = Some p →
  (UpdateStatus false clk id st w).1 = None
  ∧ payments (UpdateStatus false clk id st w).2
    = <[id := settled clk st p]> (payments w)
  ∧ (Payment.Status p = StatusPending →
     payments (UpdateStatus false clk id st w).2
     = payments (UpdateStatusIfPending TxNoFault clk id st w).2
     ∧ state_machine_step w (UpdateStatus false clk id st w).2)
  ∧ (PaymentStatus_IsTerminal (Payment.Status p) = true →
     st ≠ Payment.Status p →
     ¬ state_machine_step w (UpdateStatus false clk id st w).2).
Proof.
  intros Hp.
  assert (Hrun : UpdateStatus false clk id st w
                 = (None, set_payments (<[id := settled clk st p]> (payments w)) w)).
  { unfold UpdateStatus, bind, ret, rows, commit. cbn. rewrite Hp. cbn.
    by rewrite (sql_update_status_present _ _ _ _ _ _ Hp). }
  rewrite Hrun. cbn -[UpdateStatusIfPending].
  split; [done |]. split; [done |]. split.
  - intros Hs. rewrite UpdateStatusIfPending_unfold. cbn. rewrite Hp, Hs.
    split; [done |].
    intros j q Hq. cbn. destruct (decide (id = j)) as [<- | Hne].
    + rewrite lookup_insert_eq. exists (settled clk st p).
      assert (q = p) as -> by congruence.
      split; [done |]. rewrite Hs. split; [| done].
      destruct st; [by left | by right | by right].
    + rewrite lookup_insert_ne by done. exists q.
      split; [done |]. split; [by left | done].
  - intros Ht Hne Hstep. destruct (Hstep id p Hp) as (p' & Hp' & _ & Hkeep).
    cbn in Hp'. rewrite lookup_insert_eq in Hp'.
    specialize (Hkeep Ht). apply Hne.
    assert (settled clk st p = p) as <- by congruence. done.
Qed.

Lemma UpdateStatus_overwrites_witness :
  (UpdateStatus false (mkClock 60 61) 2%N StatusPending samples.small_world).1
    = None
  ∧ ¬ state_machine_step samples.small_world
        (UpdateStatus false (mkClock 60 61) 2%N StatusPending
           samples.small_world).2.
Proof.
  destruct (UpdateStatus_overwrites (mkClock 60 61) 2%N StatusPending
              samples.small_world samples.failed_payment)
    as (Hnil & _ & _ & Hbreaks); [reflexivity |].
  split; [exact Hnil |]. apply Hbreaks; [reflexivity | discriminate].
Defined.

End StoreQueries.

(** ** The worker: what an acknowledgement means, where deliveries go *)

Section WorkerMore.
Context `{JSON}.

Lemma ProcessPayment_queues env id w :
  live (ProcessPayment env id w).2 = live w
  ∧ dead (ProcessPayment env id w).2 = dead w.
Proof.
  rewrite ProcessPayment_unfold. cbn -[UpdateStatusIfPending].
  destruct (fetch_fault env); [done |].
  destruct (payments w !! id) as [p |] eqn:Hp; [| done].
  rewrite UpdateStatusIfPending_unfold. cbn. rewrite Hp.
  by destruct (tx_fault env), (Payment.Status p).
Qed.

(** [ProcessPayment] returns no error only on a payment that is then in a
    terminal state. *)
Lemma ProcessPayment_nil_is_settled env id w :
  (ProcessPayment env id w).1 = None →
  ∃ p, payments (ProcessPayment env id w).2 !! id = Some p
       ∧ PaymentStatus_IsTerminal (Payment.Status p) = true.
Proof.
  rewrite ProcessPayment_unfold. cbn -[UpdateStatusIfPending].
  destruct (fetch_fault env); [done |].
  destruct (payments w !! id) as [p |] eqn:Hp; [| done].
  rewrite UpdateStatusIfPending_unfold. cbn. rewrite Hp.
  destruct (tx_fault env), (Payment.Status p) eqn:Hs; cbn; try done;
    intros _; try (exists p; by rewrite Hs).
  eexists. rewrite lookup_insert_eq. split; [done |]. cbn.
  by destruct (SFltb _ _).
Qed.

(** X7. The worker acknowledges a delivery only when the payment it names
    is settled: the body decoded, the retry count was at most 3, and the
    payment is in the table in state SUCCESS or FAILED when the
    acknowledgement is sent. *)
Theorem acknowledged_task_is_settled env d w multiple :
  (handle env d w).1 = Settled (Ack multiple) →
  ∃ msg p,
    json_Unmarshal (Body d) = Some msg
    ∧ retry_count d ≤ 3
    ∧ payments (handle env d w).2 !! PaymentID msg = Some p
    ∧ PaymentStatus_IsTerminal (Payment.Status p) = true.
Proof.
  unfold handle, processMessageWithRetry, bind.
  destruct (json_Unmarshal (Body d)) as [msg |]; [| done].
  destruct (3 <? retry_count d) eqn:Hretry; [done |].
  apply Z.ltb_ge in Hretry.
  pose proof (ProcessPayment_errors env (PaymentID msg) w) as Herr.
  pose proof (ProcessPayment_nil_is_settled env (PaymentID msg) w) as Hnil.
  destruct (ProcessPayment env (PaymentID msg) w) as [[e |] w1]; cbn in *.
  - destruct (Herr e eq_refl) as [Hstore _].
    rewrite bool_decide_eq_false_2 by (by destruct Hstore as [-> | ->]).
    by destruct (Headers d).
  - intros _. destruct (Hnil eq_refl) as (p & Hp & Ht). by exists msg, p.
Qed.

(** What the loop body does to the queues. *)
Lemma handle_queues env d w :
  match (handle env d w).1 with
  | Settled (Ack _) =>
    live (handle env d w).2 = live w ∧ dead (handle env d w).2 = dead w
  | Settled (Nack _ false) =>
    live (handle env d w).2 = live w
    ∧ dead (handle env d w).2 = dead w ++ [d]
  | Settled (Nack _ true) => False
  | Crashed =>
    live (handle env d w).2 = d :: live w ∧ dead (handle env d w).2 = dead w
  end.
Proof.
  unfold handle, processMessageWithRetry, bind.
  destruct (json_Unmarshal (Body d)) as [msg |]; [| done].
  destruct (3 <? retry_count d); [done |].
  destruct (ProcessPayment_queues env (PaymentID msg) w) as [Hl Hd].
  destruct (ProcessPayment env (PaymentID msg) w) as [[e |] w1]; cbn in *.
  - case_bool_decide; [by cbn |].
    destruct (Headers d); cbn; by rewrite Hl, Hd.
  - done.
Qed.

Lemma dead_lettered_nil_r ds : dead_lettered ds [] = [].
Proof. by destruct ds. Qed.

(** X8. A run of the worker loses and duplicates no delivery and never
    requeues one. The deliveries are taken from the head of the work queue
    in order, one for each result; what is left of the queue is the rest
    (with the delivery that crashed the worker back at its head); the
    dead-letter queue grows by the rejected deliveries, in order. *)
Theorem worker_accounts_for_every_delivery envs w :
  live (worker envs w).2 = drop (settled_count (worker envs w).1) (live w)
  ∧ dead (worker envs w).2
    = dead w ++ dead_lettered (live w) (worker envs w).1
  ∧ (length (worker envs w).1 ≤ length envs)%nat
  ∧ (length (worker envs w).1 ≤ length (live w))%nat
  ∧ Forall (λ h, ∀ multiple, h ≠ Settled (Nack multiple true))
      (worker envs w).1.
Proof.
  revert w. induction envs as [| env rest IH]; intros w.
  { cbn. destruct (live w); cbn; rewrite app_nil_r;
      repeat split; (lia || constructor). }
  cbn [worker]. unfold bind, broker_receive.
  destruct (live w) as [| d q] eqn:Hlive.
  { cbn. rewrite Hlive, app_nil_r. repeat split; (lia || constructor). }
  pose proof (handle_queues env d (set_live q w)) as Hq.
  destruct (handle env d (set_live q w)) as [[s |] w1]; cbn in Hq.
  - destruct (IH w1) as (Hl & Hd & Hn & Hm & Hall).
    destruct (worker rest w1) as [hs w2]. cbn in *.
    assert (Hs : live w1 = q ∧ dead w1 = dead w
                            ++ (if is_rejection (Settled s) then [d] else [])
                 ∧ ∀ multiple, Settled s ≠ Settled (Nack multiple true)).
    { destruct s as [m | m []]; try done; destruct Hq as [-> ->]; cbn;
        rewrite ?app_nil_r; done. }
    destruct Hs as (Hq1 & Hd1 & Hnever).
    cbn -[is_rejection].
    rewrite Hl, Hd, Hq1, Hd1, <- app_assoc.
    repeat split; try lia; [rewrite Hq1 in Hm; lia | by constructor].
  - destruct Hq as [Hl Hd]. cbn in *.
    rewrite Hl, Hd, dead_lettered_nil_r, app_nil_r.
    repeat split; try lia. constructor; [done | constructor].
Qed.

End WorkerMore.

Lemma acknowledged_task_is_settled_witness :
  ∃ msg p,
    json_Unmarshal (Body (samples.task 7%N 0)) = Some msg
    ∧ retry_count (samples.task 7%N 0) ≤ 3
    ∧ payments (handle samples.calm (samples.task 7%N 0) samples.small_world).2
        !! PaymentID msg = Some p
    ∧ PaymentStatus_IsTerminal (Payment.Status p) = true.
Proof.
  apply (acknowledged_task_is_settled (H := samples.binary_json)
           samples.calm (samples.task 7%N 0) samples.small_world false).
  reflexivity.
Defined.

(** ** [ProcessPayment]: the decision *)

Section Decision.

Lemma SFltb_finite_mono (d : spec_float) (m m' : positive) (e : Z) :
  (m ≤ m')%positive →
  SFltb d (S754_finite false m e) = true →
  SFltb d (S754_finite false m' e) = true.
Proof.
  intros Hle. destruct d as [s | s | | s md ed]; try done.
  destruct s; [done |]. unfold SFltb, SFcompare.
  destruct (ed ?= e); try done.
  change (Pos.compare_cont Eq) with Pos.compare.
  destruct (md ?= m)%positive eqn:Hcmp; try done.
  pose proof (proj1 (Pos.compare_lt_iff md m) Hcmp) as Hlt.
  assert ((md ?= m') = Lt)%positive as -> by (apply Pos.compare_lt_iff; lia).
  done.
Qed.

(** Every bank's rate lies between the default rate and the rate of CBE. *)
Lemma successRate_bounds bank :
  ∃ m, successRate bank = S754_finite false m (-53)
       ∧ (7656119366529843 ≤ m ≤ 8556839292003942)%positive.
Proof.
  unfold successRate.
  repeat case_bool_decide; eexists;
    (split; [reflexivity | split; vm_compute; discriminate]).
Qed.

(** X13. On a pending payment, when the store answers, [ProcessPayment]
    fetches, decides and settles in that order: the payment gets the outcome
    of the draw against the rate of its bank and no error is returned.
    Whatever the bank code, a draw below the default rate (0.85) settles
    SUCCESS and a draw not below the rate of CBE (0.95) settles FAILED. *)
Theorem ProcessPayment_settles_pending env id w p :
  payments w !! id = Some p →
  Payment.Status p = StatusPending →
  fetch_fault env = false →
  tx_fault env = TxNoFault →
  let outcome :=
    if SFltb (draw env) (successRate (Payment.BankCode p))
    then StatusSuccess else StatusFailed in
  (ProcessPayment env id w).1 = None
  ∧ payments (ProcessPayment env id w).2
    = <[id := settled (clock env) outcome p]> (payments w)
  ∧ trace (ProcessPayment env id w).2
    = trace w ++ [EvGetByID id; EvDecision id outcome; EvTransition id outcome]
  ∧ (SFltb (draw env) (successRate "") = true → outcome = StatusSuccess)
  ∧ (SFltb (draw env) (successRate "CBE") = false → outcome = StatusFailed).
Proof.
  intros Hp Hs Hfetch Htx. cbn zeta.
  rewrite ProcessPayment_unfold. cbn -[UpdateStatusIfPending successRate].
  rewrite Hfetch, Hp, Htx, UpdateStatusIfPending_unfold.
  cbn -[successRate]. rewrite Hp, Hs. cbn -[successRate].
  split; [done |]. split; [done |].
  split; [by rewrite <- !app_assoc |].
  destruct (successRate_bounds (Payment.BankCode p)) as (m & -> & Hlo & Hhi).
  split.
  - intros Hlow.
    by rewrite (SFltb_finite_mono _ 7656119366529843 m (-53) Hlo Hlow).
  - intros Hhigh. destruct (SFltb (draw env) (S754_finite false m (-53)))
      eqn:Hdraw; [| done].
    pose proof (SFltb_finite_mono _ m 8556839292003942 (-53) Hhi Hdraw)
      as Hcbe.
    change (S754_finite false 8556839292003942 (-53))
      with (successRate "CBE") in Hcbe.
    congruence.
Qed.

Lemma ProcessPayment_settles_pending_witness :
  (ProcessPayment samples.calm 7%N samples.small_world).1 = None
  ∧ payments (ProcessPayment samples.calm 7%N samples.small_world).2
    = <[7%N := settled (mkClock 50 51) StatusSuccess samples.pending_payment]>
        (payments samples.small_world)
  ∧ trace (ProcessPayment samples.calm 7%N samples.small_world).2
    = [] ++ [EvGetByID 7%N; EvDecision 7%N StatusSuccess;
             EvTransition 7%N StatusSuccess].
Proof.
  destruct (ProcessPayment_settles_pending samples.calm 7%N samples.small_world
              samples.pending_payment)
    as (Hnil & Hrows & Htrace & _); try reflexivity.
  split; [exact Hnil |]. split; [exact Hrows | exact Htrace].
Defined.

(** X14. [ProcessPayment] makes no decision and attempts no transition for
    a payment it cannot fetch: when the fetch fails or finds no row it
    returns [ErrDatabase] or [ErrPaymentNotFound] and has done nothing but
    the fetch. *)
Theorem ProcessPayment_needs_the_payment env id w :
  fetch_fault env = true ∨ payments w !! id = None →
  ProcessPayment env id w
  = (Some (if fetch_fault env then ErrDatabase else ErrPaymentNotFound),
     record (EvGetByID id) w).
Proof.
  intros Hcase. rewrite ProcessPayment_unfold. cbn -[UpdateStatusIfPending].
  destruct (fetch_fault env); [done |].
  destruct Hcase as [| ->]; done.
Qed.

Lemma ProcessPayment_needs_the_payment_witness :
  ProcessPayment samples.calm 99%N samples.small_world
  = (Some ErrPaymentNotFound, record (EvGetByID 99%N) samples.small_world).
Proof.
  apply (ProcessPayment_needs_the_payment samples.calm 99%N samples.small_world).
  right. reflexivity.
Defined.

End Decision.

(** ** From the publish to the settlement *)

Section EndToEnd.
Context `{JSON}.

(** X15. A publish that succeeds adds one delivery at the tail of the work
    queue: its body is the encoded message of the payment and the worker
    reads its retry count as 0. A publish that fails returns the channel's
    error and leaves the queue as it was. Neither touches the table or the
    dead-letter queue. *)
Theorem PublishPaymentCreated_enqueues env id w :
  payments (PublishPaymentCreated env id w).2 = payments w
  ∧ dead (PublishPaymentCreated env id w).2 = dead w
  ∧ if publish_fault env
    then (PublishPaymentCreated env id w).1 = Some ChannelError
         ∧ live (PublishPaymentCreated env id w).2 = live w
    else (PublishPaymentCreated env id w).1 = None
         ∧ ∃ d, live (PublishPaymentCreated env id w).2 = live w ++ [d]
                ∧ Body d = json_Marshal
                             (mkMessage id "payment.created" (publish_now env))
                ∧ MessageId d = new_message_id env
                ∧ retry_count d = 0.
Proof.
  rewrite PublishPaymentCreated_unfold.
  destruct (publish_fault env); cbn; [done |].
  split; [done |]. split; [done |]. split; [done |]. by eexists.
Qed.

(** X12. A payment created with its task published on an empty queue is
    settled by the first delivery, when the codec reads back the payment id
    it wrote and the store answers: the worker acknowledges, both queues are as
    before the publish, and the table holds the payment in the state the
    draw gave it. *)
Theorem created_payment_gets_settled env penv req w :
  PaymentID <$>
    json_Unmarshal
      (json_Marshal
         (mkMessage (new_id env) "payment.created"
            (publish_now (publish_env env))))
  = Some (new_id env) →
  CreatePaymentRequest.Validate req = None →
  lookup_fault env = false →
  insert_fault env = false →
  publish_fault (publish_env env) = false →
  row_with_reference (CreatePaymentRequest.Reference req) (payments w) = None →
  payments w !! new_id env = None →
  live w = [] →
  fetch_fault penv = false →
  tx_fault penv = TxNoFault →
  let outcome :=
    if SFltb (draw penv) (successRate (CreatePaymentRequest.BankCode req))
    then StatusSuccess else StatusFailed in
  (CreatePayment env req w).1 = Ok (new_payment env req)
  ∧ ∃ w2, worker [penv] (CreatePayment env req w).2
          = ([Settled (Ack false)], w2)
          ∧ live w2 = []
          ∧ dead w2 = dead w
          ∧ payments w2
            = <[new_id env := settled (clock penv) outcome (new_payment env req)]>
                (payments w).
Proof.
  intros Hcodec Hvalid Hlookup Hinsert Hpublish Hfree Hfresh Hlive Hfetch Htx.
  cbn zeta.
  apply fmap_Some in Hcodec as (msg & Hdecode & Hid).
  pose proof (CreatePayment_unfold env req w) as Hc.
  rewrite Hvalid in Hc. cbn -[Create PublishPaymentCreated] in Hc.
  rewrite Hlookup, Hfree, Create_unfold, Hinsert in Hc.
  cbn -[PublishPaymentCreated] in Hc.
  rewrite Hfree, Hfresh, PublishPaymentCreated_unfold, Hpublish in Hc.
  cbn in Hc. rewrite Hlive in Hc. cbn [app] in Hc.
  rewrite Hc. cbn [fst snd]. split; [done |].
  erewrite worker_one by reflexivity.
  unfold handle, processMessageWithRetry, bind. cbn [Body].
  rewrite Hdecode.
  match goal with |- context [3 <? retry_count ?d] =>
    change (3 <? retry_count d) with false
  end.
  rewrite <- Hid, ProcessPayment_unfold, Hfetch.
  cbn -[UpdateStatusIfPending successRate]. rewrite lookup_insert_eq, Htx.
  rewrite UpdateStatusIfPending_unfold. cbn -[successRate].
  rewrite lookup_insert_eq. cbn -[successRate].
  eexists. split; [done |]. cbn -[successRate].
  split; [done |]. split; [done |]. by rewrite insert_insert_eq.
Qed.

End EndToEnd.

Lemma created_payment_gets_settled_witness :
  (CreatePayment (samples.quiet_create 11%N) samples.fresh_request
     samples.small_world).1
    = Ok (new_payment (samples.quiet_create 11%N) samples.fresh_request)
  ∧ ∃ w2, worker [samples.calm]
            (CreatePayment (samples.quiet_create 11%N) samples.fresh_request
               samples.small_world).2
          = ([Settled (Ack false)], w2)
          ∧ live w2 = []
          ∧ dead w2 = dead samples.small_world
          ∧ payments w2
            = <[11%N := settled (mkClock 50 51) StatusSuccess
                          (new_payment (samples.quiet_create 11%N)
                             samples.fresh_request)]>
                (payments samples.small_world).
Proof.
  apply (created_payment_gets_settled (H := samples.binary_json)
           (samples.quiet_create 11%N) samples.calm samples.fresh_request
           samples.small_world); reflexivity.
Defined.

Lemma dead_lettered_delivery_settled_nothing_witness :
  payments (handle samples.outage (samples.task 7%N 0) samples.small_world).2
  = payments samples.small_world.
Proof.
  apply (dead_lettered_delivery_settled_nothing (H := samples.binary_json)
           samples.outage (samples.task 7%N 0) samples.small_world false false).
  reflexivity.
Defined.

Lemma store_error_dead_letters_witness :
  ∃ w', worker [samples.outage] (samples.queued (samples.task 7%N 0))
        = ([Settled (Nack false false)], w')
        ∧ live w' = []
        ∧ dead w' = [] ++ [samples.task 7%N 0]
        ∧ payments w' = payments (samples.queued (samples.task 7%N 0)).
Proof.
  apply (store_error_dead_letters (H := samples.binary_json)
           samples.outage (samples.task 7%N 0) []
           (mkMessage 7%N "payment.created" 0)
           {[ "retry_count" := FInt32 0 ]} ErrDatabase
           (samples.queued (samples.task 7%N 0))); try reflexivity.
  discriminate.
Defined.

Lemma store_error_without_headers_panics_witness :
  ∃ w', worker [samples.outage] (samples.queued (samples.bare_task 7%N))
        = ([Crashed], w')
        ∧ live w' = [samples.bare_task 7%N].
Proof.
  apply (store_error_without_headers_panics (H := samples.binary_json)
           samples.outage (samples.bare_task 7%N) []
           (mkMessage 7%N "payment.created" 0) ErrDatabase
           (samples.queued (samples.bare_task 7%N))); reflexivity.
Defined.

(** ** Listing and statistics *)

Section Listing.

Lemma int_small z : - 2 ^ 63 ≤ z < 2 ^ 63 → int z = z.
Proof. intros Hz. unfold int. rewrite Z.mod_small; lia. Qed.

(** What [List] returns is cut out of the scan and no longer than a
    non-negative limit; the world is left as it is. *)
Lemma List_result f sc limit offset w :
  (List f sc limit offset w).2 = w
  ∧ match (List f sc limit offset w).1 with
    | Ok ps => sublist ps sc ∧ (0 ≤ limit → Z.of_nat (length ps) ≤ limit)
    | Err e => e = ErrDatabase ∨ ∃ msg, e = errors_New msg
    end.
Proof.
  assert (Hsent : ∀ sent,
    sent = (if (limit <? 0) || (offset <? 0) then []
            else take (Z.to_nat limit) (drop (Z.to_nat offset) sc)) →
    sublist sent sc ∧ (0 ≤ limit → Z.of_nat (length sent) ≤ limit)).
  { intros sent ->. destruct ((limit <? 0) || (offset <? 0)).
    - split; [apply sublist_nil_l | cbn; lia].
    - split.
      + etrans; [apply sublist_take | apply sublist_drop].
      + intros Hl. rewrite length_take. lia. }
  unfold List, ret.
  remember (if (limit <? 0) || (offset <? 0) then []
            else take (Z.to_nat limit) (drop (Z.to_nat offset) sc))
    as sent eqn:Hs.
  destruct (Hsent sent eq_refl) as [Hsub Hlen]. clear Hsent Hs.
  destruct f as [| | after msg | after].
  - done.
  - split; [done |]. by left.
  - destruct (after <? length sent)%nat; [| done].
    split; [done |]. right. by eexists.
  - split; [done |]. split.
    + etrans; [apply sublist_take | exact Hsub].
    + intros Hl. specialize (Hlen Hl). cbn. rewrite length_take. lia.
Qed.

(** What [ListPayments] returns, for every page, limit and fault. *)
Lemma ListPayments_result env page limit w :
  (ListPayments env page limit w).2 = w
  ∧ match (ListPayments env page limit w).1 with
    | Ok (ps, total) =>
      sublist ps (scan env)
      ∧ total = Z.of_nat (length ps)
      ∧ total ≤ (if (limit <? 1) || (100 <? limit) then 20 else limit)
    | Err e => e = ErrDatabase ∨ ∃ msg, e = errors_New msg
    end.
Proof.
  set (limit' := if (limit <? 1) || (100 <? limit) then 20 else limit).
  assert (Hlimit : 1 ≤ limit' ≤ 100).
  { unfold limit'. destruct (Z.ltb_spec limit 1), (Z.ltb_spec 100 limit);
      cbn; lia. }
  unfold ListPayments, bind. fold limit'.
  match goal with |- context [List ?f ?sc ?l ?o w] =>
    destruct (List_result f sc l o w) as [Hw Hr];
    destruct (List f sc l o w) as [[ps | e] w1]
  end; cbn in *; subst w1; (split; [done |]); [| done].
  destruct Hr as [Hsub Hlen]. specialize (Hlen ltac:(lia)).
  split; [done |]. split; [done |]. lia.
Qed.

(** X16. [ListPayments] serves page 1 for a page below 1 and 20 rows a
    page for a limit outside 1..100. A page it returns is cut out of
    the rows in the order of the database, holds at most [limit] rows, never
    more than 100, and the total it reports is the length of that page, not
    the size of the table. It changes nothing. *)
Theorem ListPayments_serves_a_bounded_page env page limit w :
  ListPayments env page limit w
  = ListPayments env (Z.max 1 page)
      (if (limit <? 1) || (100 <? limit) then 20 else limit) w
  ∧ (ListPayments env page limit w).2 = w
  ∧ match (ListPayments env page limit w).1 with
    | Ok (ps, total) =>
      sublist ps (scan env)
      ∧ total = Z.of_nat (length ps)
      ∧ total ≤ 100
      ∧ total ≤ (if (limit <? 1) || (100 <? limit) then 20 else limit)
    | Err e => e = ErrDatabase ∨ ∃ msg, e = errors_New msg
    end.
Proof.
  split.
  - unfold ListPayments.
    set (limit' := if (limit <? 1) || (100 <? limit) then 20 else limit).
    replace (if Z.max 1 page <? 1 then 1 else Z.max 1 page)
      with (if page <? 1 then 1 else page)
      by (destruct (Z.ltb_spec page 1), (Z.ltb_spec (Z.max 1 page) 1); lia).
    replace (if (limit' <? 1) || (100 <? limit') then 20 else limit')
      with limit'; [done |].
    unfold limit'.
    destruct (Z.ltb_spec limit 1), (Z.ltb_spec 100 limit); cbn; try done.
    destruct (Z.ltb_spec limit 1), (Z.ltb_spec 100 limit); cbn; lia.
  - destruct (ListPayments_result env page limit w) as [Hw Hr].
    split; [done |].
    destruct (ListPayments env page limit w).1 as [[ps total] | e]; [| done].
    destruct Hr as (Hsub & Htotal & Hle). repeat (split; [done |]).
    split; [| done].
    destruct (Z.ltb_spec limit 1), (Z.ltb_spec 100 limit); cbn in Hle; lia.
Qed.

(** X17. Without a fault and without overflow of the offset, two
    consecutive pages of [ListPayments] laid end to end are the next
    [2 * limit] rows of the scan: the pages neither overlap nor skip a row.
    On a scan that [ORDER BY created_at DESC] allows, every row listed is a
    row of the table. *)
Theorem ListPayments_pages_tile env page limit w ps qs :
  list_fault env = ListNoFault →
  1 ≤ page → 1 ≤ limit ≤ 100 → page * limit < 2 ^ 63 →
  (ListPayments env page limit w).1 = Ok ps →
  (ListPayments env (page + 1) limit w).1 = Ok qs →
  ps.1 ++ qs.1
  = take (2 * Z.to_nat limit)
      (drop (Z.to_nat ((page - 1) * limit)) (scan env))
  ∧ (ordered_scan (payments w) (scan env) →
     ∀ p, p ∈ ps.1 → ∃ id, payments w !! id = Some p).
Proof.
  intros Hf Hpage Hlimit Hfit. unfold ListPayments, bind, List, ret.
  rewrite Hf.
  destruct (Z.ltb_spec page 1); [lia |].
  destruct (Z.ltb_spec (page + 1) 1); [lia |].
  destruct (Z.ltb_spec limit 1); [lia |].
  destruct (Z.ltb_spec 100 limit); [lia |]. cbn [orb].
  rewrite !int_small by nia.
  destruct (Z.ltb_spec limit 0); [lia |].
  destruct (Z.ltb_spec ((page - 1) * limit) 0); [nia |].
  destruct (Z.ltb_spec ((page + 1 - 1) * limit) 0); [nia |]. cbn.
  intros [= <-] [= <-]. cbn [fst]. split.
  - replace ((page + 1 - 1) * limit) with ((page - 1) * limit + limit) by lia.
    rewrite Z2Nat.inj_add, <- drop_drop by lia.
    rewrite take_take_drop. f_equal. lia.
  - intros [Hperm _] p Hp.
    assert (Hin : p ∈ scan env).
    { eapply elem_of_sublist; [exact Hp |].
      etrans; [apply sublist_take | apply sublist_drop]. }
    rewrite Hperm in Hin. apply list_elem_of_fmap in Hin as ([id q] & -> & Hin).
    exists id. by apply elem_of_map_to_list.
Qed.

End Listing.

Lemma ListPayments_pages_tile_witness :
  [samples.pending_payment] ++ [samples.failed_payment]
  = take (2 * Z.to_nat 1) (drop (Z.to_nat ((1 - 1) * 1))
                             (scan samples.small_scan)).
Proof.
  apply (ListPayments_pages_tile samples.small_scan 1 1 samples.small_world
           ([samples.pending_payment], 1) ([samples.failed_payment], 1));
    try reflexivity; lia.
Defined.

Section Statistics.

(** The counters of the loop count, as long as they fit an [int]. *)
Lemma tally_counts ps t :
  0 ≤ successful t → 0 ≤ failed t → 0 ≤ pending t →
  0 ≤ etbCount t → 0 ≤ usdCount t →
  successful t + Z.of_nat (length ps) < 2 ^ 63 →
  failed t + Z.of_nat (length ps) < 2 ^ 63 →
  pending t + Z.of_nat (length ps) < 2 ^ 63 →
  etbCount t + Z.of_nat (length ps) < 2 ^ 63 →
  usdCount t + Z.of_nat (length ps) < 2 ^ 63 →
  successful (foldl tally_step t ps) = successful t + count_status StatusSuccess ps
  ∧ failed (foldl tally_step t ps) = failed t + count_status StatusFailed ps
  ∧ pending (foldl tally_step t ps) = pending t + count_status StatusPending ps
  ∧ etbCount (foldl tally_step t ps) = etbCount t + count_currency CurrencyETB ps
  ∧ usdCount (foldl tally_step t ps) = usdCount t + count_currency CurrencyUSD ps.
Proof.
  unfold count_status, count_currency.
  revert t. induction ps as [| p ps IH]; intros t Hs Hf Hp He Hu Bs Bf Bp Be Bu.
  { cbn. lia. }
  cbn [foldl]. cbn [length] in *.
  assert (Hstep :
    successful (tally_step t p)
      = successful t + (if decide (Payment.Status p = StatusSuccess) then 1 else 0)
    ∧ failed (tally_step t p)
      = failed t + (if decide (Payment.Status p = StatusFailed) then 1 else 0)
    ∧ pending (tally_step t p)
      = pending t + (if decide (Payment.Status p = StatusPending) then 1 else 0)
    ∧ etbCount (tally_step t p)
      = etbCount t + (if decide (Payment.Currency p = CurrencyETB) then 1 else 0)
    ∧ usdCount (tally_step t p)
      = usdCount t + (if decide (Payment.Currency p = CurrencyUSD) then 1 else 0)).
  { unfold tally_step.
    destruct (Payment.Status p); cbn;
      repeat case_bool_decide; repeat case_decide; cbn;
      rewrite ?int_small by lia;
      unfold CurrencyETB, CurrencyUSD in *; try congruence;
      repeat split; lia. }
  destruct Hstep as (Es & Ef & Ep & Ee & Eu).
  destruct (IH (tally_step t p)) as (Is & If & Ip & Ie & Iu);
    try (rewrite ?Es, ?Ef, ?Ep, ?Ee, ?Eu; repeat case_decide; lia).
  rewrite Is, If, Ip, Ie, Iu, Es, Ef, Ep, Ee, Eu, !filter_cons.
  repeat case_decide; cbn [length]; repeat split; lia.
Qed.

(** The sums of the loop stay zero while no amount is added. *)
Lemma tally_no_amount c ps t :
  (c = CurrencyETB ∨ c = CurrencyUSD) →
  Forall (λ p, Payment.Currency p ≠ c) ps →
  (if bool_decide (c = CurrencyETB) then totalETB else totalUSD)
    (foldl tally_step t ps)
  = (if bool_decide (c = CurrencyETB) then totalETB else totalUSD) t.
Proof.
  intros Hc Hall. revert t. induction Hall as [| p ps Hp _ IH]; intros t.
  { done. }
  cbn [foldl]. rewrite IH. unfold tally_step.
  destruct Hc as [-> | ->]; destruct (Payment.Status p);
    repeat case_bool_decide; cbn; congruence.
Qed.

Lemma status_counts_partition ps :
  count_status StatusSuccess ps + count_status StatusFailed ps
  + count_status StatusPending ps = Z.of_nat (length ps).
Proof.
  unfold count_status. induction ps as [| p ps IH]; [done |].
  rewrite !filter_cons. destruct (Payment.Status p);
    repeat case_decide; try congruence; cbn [length]; lia.
Qed.

(** X18. The statistics that [GetStatistics] returns are those of the at
    most 1000 payments listed: the counts by state are the numbers of
    listed payments in each state and add up to the total, and for a
    currency in which no listed payment is, the sum and the average are
    zero, with no division. Nothing is changed. *)
Theorem GetStatistics_counts env w :
  (GetStatistics env w).2 = w
  ∧ match (GetStatistics env w).1 with
    | Ok stats =>
      ∃ ps, sublist ps (scan env)
        ∧ TotalPayments stats = Z.of_nat (length ps)
        ∧ TotalPayments stats ≤ 1000
        ∧ SuccessfulPayments stats = count_status StatusSuccess ps
        ∧ FailedPayments stats = count_status StatusFailed ps
        ∧ PendingPayments stats = count_status StatusPending ps
        ∧ SuccessfulPayments stats + FailedPayments stats
          + PendingPayments stats = TotalPayments stats
        ∧ (Forall (λ p, Payment.Currency p ≠ CurrencyETB) ps →
           TotalAmountETB stats = float_zero
           ∧ AverageAmountETB stats = float_zero)
        ∧ (Forall (λ p, Payment.Currency p ≠ CurrencyUSD) ps →
           TotalAmountUSD stats = float_zero
           ∧ AverageAmountUSD stats = float_zero)
    | Err e => e = ErrDatabase ∨ ∃ msg, e = errors_New msg
    end.
Proof.
  unfold GetStatistics, bind.
  destruct (List_result (list_fault env) (scan env) 1000 0 w) as [Hw Hr].
  destruct (List (list_fault env) (scan env) 1000 0 w) as [[ps | e] w1];
    cbn in *; subst w1; (split; [done |]); [| done].
  destruct Hr as [Hsub Hlen]. specialize (Hlen ltac:(lia)).
  destruct (tally_counts ps (mkTally 0 0 0 float_zero float_zero 0 0))
    as (Es & Ef & Ep & Ee & Eu); cbn; try lia.
  cbn in Es, Ef, Ep, Ee, Eu. unfold tally.
  pose proof (status_counts_partition ps) as Hpart.
  exists ps. rewrite Es, Ef, Ep, Ee, Eu.
  repeat (split; [done || lia |]). split.
  - intros Hnone.
    pose proof (tally_no_amount CurrencyETB ps
                  (mkTally 0 0 0 float_zero float_zero 0 0)
                  (or_introl eq_refl) Hnone) as Hsum.
    rewrite bool_decide_eq_true_2 in Hsum by done.
    cbn in Hsum. rewrite Hsum.
    assert (count_currency CurrencyETB ps = 0) as ->.
    { unfold count_currency. clear -Hnone.
      induction Hnone as [| p ps Hp _ IH]; [done |].
      rewrite filter_cons. by case_decide. }
    done.
  - intros Hnone.
    pose proof (tally_no_amount CurrencyUSD ps
                  (mkTally 0 0 0 float_zero float_zero 0 0)
                  (or_intror eq_refl) Hnone) as Hsum.
    rewrite bool_decide_eq_false_2 in Hsum by done.
    cbn in Hsum. rewrite Hsum.
    assert (count_currency CurrencyUSD ps = 0) as ->.
    { unfold count_currency. clear -Hnone.
      induction Hnone as [| p ps Hp _ IH]; [done |].
      rewrite filter_cons. by case_decide. }
    done.
Qed.

End Statistics.

(** ** The handlers *)

Import presentation.

Section Handlers.
Context `{JSON} `{Library}.

Lemma Validate_error_is_new r e :
  CreatePaymentRequest.Validate r = Some e → ∃ msg, e = errors_New msg.
Proof.
  unfold CreatePaymentRequest.Validate.
  repeat match goal with |- context [if ?b then _ else _] => destruct b end;
    intros [= <-]; by eexists.
Qed.

(** The errors of [CreatePayment]: those of [Validate], the taken
    reference, the database. *)
Lemma CreatePayment_errors env req w e :
  (CreatePayment env req w).1 = Err e →
  (CreatePaymentRequest.Validate req = Some e ∧ (CreatePayment env req w).2 = w)
  ∨ (CreatePaymentRequest.Validate req = None
     ∧ (e = ErrPaymentAlreadyExists ∨ e = ErrDatabase)
     ∧ payments (CreatePayment env req w).2 = payments w).
Proof.
  rewrite CreatePayment_unfold.
  destruct (CreatePaymentRequest.Validate req) as [e' |];
    [intros [= <-]; by left |].
  intros He. right. split; [done |]. revert He.
  cbn -[Create PublishPaymentCreated].
  destruct (lookup_fault env); [intros [= <-]; by auto |].
  destruct (row_with_reference _ _) eqn:Hrow; [intros [= <-]; by auto |].
  rewrite Create_unfold. cbn -[PublishPaymentCreated].
  destruct (insert_fault env); [intros [= <-]; by auto |].
  rewrite Hrow.
  destruct (payments w !! new_id env); [intros [= <-]; by auto | done].
Qed.

(** X19. The handler of [POST /payments] answers 400 only to a body that
    does not decode. To a decoded request it answers 201 exactly when
    [CreatePayment] returned the payment, 409 exactly when the reference is
    taken, and 500 otherwise: a request that [Validate] refuses is answered
    500, not 400, and nothing is created or published for it. *)
Theorem CreatePayment_handler_statuses env c w :
  match echo_Bind (handlers.RequestBody c) with
  | None =>
    handlers.CreatePayment env c w
    = (handlers.mkResponse handlers.StatusBadRequest
         (handlers.ErrorBody "Invalid request body"), w)
  | Some req =>
    (handlers.CreatePayment env c w).2 = (CreatePayment env req w).2
    ∧ match (CreatePayment env req w).1 with
      | Ok p =>
        handlers.StatusCode (handlers.CreatePayment env c w).1
        = handlers.StatusCreated
      | Err e =>
        if bool_decide (e = ErrPaymentAlreadyExists) then
          handlers.StatusCode (handlers.CreatePayment env c w).1
          = handlers.StatusConflict
        else
          (handlers.CreatePayment env c w).1
          = handlers.mkResponse handlers.StatusInternalServerError
              (handlers.ErrorBody "Failed to create payment")
      end
    ∧ (is_Some (CreatePaymentRequest.Validate req) →
       handlers.StatusCode (handlers.CreatePayment env c w).1
       = handlers.StatusInternalServerError
       ∧ (handlers.CreatePayment env c w).2 = w)
  end.
Proof.
  unfold handlers.CreatePayment.
  destruct (echo_Bind (handlers.RequestBody c)) as [req |]; [| done].
  unfold bind.
  pose proof (CreatePayment_errors env req w) as Herr.
  pose proof (CreatePayment_unfold env req w) as Hunf.
  destruct (CreatePayment env req w) as [[p | e] w1]; cbn in Herr |- *.
  - split; [done |]. split; [done |].
    intros [e He]. by rewrite He in Hunf.
  - assert (Hclass : (∃ msg, e = errors_New msg)
                     ∨ e = ErrPaymentAlreadyExists ∨ e = ErrDatabase).
    { destruct (Herr e eq_refl) as [[Hv _] | (_ & He & _)]; [| by right].
      left. by eapply Validate_error_is_new. }
    assert (Hv : is_Some (CreatePaymentRequest.Validate req) →
                 (∃ msg, e = errors_New msg) ∧ w1 = w).
    { intros [e' He'].
      destruct (Herr e eq_refl) as [[Hv ->] | (Hv & _)]; [| congruence].
      split; [by eapply Validate_error_is_new | done]. }
    destruct Hclass as [[msg ->] | [-> | ->]];
      repeat (case_bool_decide; try done); cbn;
      (split; [done |]); (split; [done |]); intros Hsome;
      destruct (Hv Hsome) as [[msg' ?] ->]; done.
Qed.

End Handlers.

Section HandlersMore.
Context `{JSON} `{Library}.

(** X20. For a page of at least 1 and a limit within 1..100 (their
    product fitting an [int]) the handler of [GET /payments] never reports
    more pages: [has_more] compares the length of the page served with
    [page * limit], which it cannot exceed. The response carries the page
    and the limit as parsed. *)
Theorem ListPayments_handler_never_has_more env c w :
  1 ≤ (strconv_Atoi (handlers.QueryParam c "page")).1 →
  1 ≤ (strconv_Atoi (handlers.QueryParam c "limit")).1 ≤ 100 →
  (strconv_Atoi (handlers.QueryParam c "page")).1
  * (strconv_Atoi (handlers.QueryParam c "limit")).1 < 2 ^ 63 →
  match (handlers.ListPayments env c w).1 with
  | handlers.mkResponse code
      (handlers.ListBody responses total page limit has_more) =>
    code = handlers.StatusOK
    ∧ has_more = false
    ∧ page = (strconv_Atoi (handlers.QueryParam c "page")).1
    ∧ limit = (strconv_Atoi (handlers.QueryParam c "limit")).1
    ∧ total = Z.of_nat (length responses)
    ∧ total ≤ limit
  | handlers.mkResponse code (handlers.ErrorBody _) =>
    code = handlers.StatusInternalServerError
  | _ => False
  end.
Proof.
  set (page := (strconv_Atoi (handlers.QueryParam c "page")).1).
  set (limit := (strconv_Atoi (handlers.QueryParam c "limit")).1).
  intros Hpage Hlimit Hfit. unfold handlers.ListPayments, bind.
  fold page limit.
  destruct (ListPayments_result env page limit w) as (_ & Hr).
  destruct (ListPayments env page limit w) as [[[ps total] | e] w1];
    cbn in *; [| done].
  destruct Hr as (_ & -> & Hle).
  destruct (Z.ltb_spec limit 1); [lia |].
  destruct (Z.ltb_spec 100 limit); [lia |]. cbn in Hle.
  rewrite int_small by nia. rewrite length_fmap.
  split; [done |]. split; [| done].
  apply Z.ltb_ge. nia.
Qed.

(** X21. Without the parameters [page] and [limit], [strconv.Atoi] giving
    0 for the empty string, the handler serves the first page of 20 rows
    and yet reports page 0 and limit 0, and [has_more] as soon as that page
    has a row. *)
Theorem ListPayments_handler_defaults env c w :
  (strconv_Atoi "").1 = 0 →
  handlers.Query c !! "page" = None →
  handlers.Query c !! "limit" = None →
  match (ListPayments env 1 20 w).1 with
  | Ok (ps, total) =>
    (handlers.ListPayments env c w).1
    = handlers.mkResponse handlers.StatusOK
        (handlers.ListBody (ToResponse <$> ps) total 0 0
           (bool_decide (ps ≠ [])))
    ∧ total ≤ 20
  | Err _ =>
    (handlers.ListPayments env c w).1
    = handlers.mkResponse handlers.StatusInternalServerError
        (handlers.ErrorBody "Failed to list payments")
  end.
Proof.
  intros Hatoi Hp Hl. unfold handlers.ListPayments, handlers.QueryParam, bind.
  rewrite Hp, Hl. cbn [default]. rewrite Hatoi.
  destruct (ListPayments_result env 1 20 w) as (_ & Hr).
  change (ListPayments env 0 0 w) with (ListPayments env 1 20 w).
  destruct (ListPayments env 1 20 w) as [[[ps total] | e] w1]; cbn; [| done].
  cbn in Hr. destruct Hr as (_ & -> & Hle). split; [| done].
  assert ((int (0 * 0) <? Z.of_nat (length ps)) = bool_decide (ps ≠ []))
    as ->; [| done].
  change (int (0 * 0)) with 0. destruct ps as [| p ps].
  - by rewrite bool_decide_eq_false_2 by (intros Hne; by apply Hne).
  - rewrite bool_decide_eq_true_2 by done. apply Z.ltb_lt. cbn [length]. lia.
Qed.

(** X22. The handler of [GET /payments/:id] answers 400 to an id that does
    not parse; otherwise 500 when the store fails, 404 when the table has
    no such payment, and 200 with the response of the row when it has. The
    handler of [GET /payments/by-reference] answers 400 to an absent or
    empty reference without asking the store. Neither changes the table. *)
Theorem GetPayment_handler_statuses fault c w :
  (handlers.GetPayment fault c w).1
  = match uuid_Parse (handlers.Param_id c) with
    | None =>
      handlers.mkResponse handlers.StatusBadRequest
        (handlers.ErrorBody "Invalid payment ID format")
    | Some id =>
      if fault then
        handlers.mkResponse handlers.StatusInternalServerError
          (handlers.ErrorBody "Failed to retrieve payment")
      else match payments w !! id with
      | None =>
        handlers.mkResponse handlers.StatusNotFound
          (handlers.ErrorBody "Payment not found")
      | Some p =>
        handlers.mkResponse handlers.StatusOK
          (handlers.PaymentBody (ToResponse p))
      end
    end
  ∧ payments (handlers.GetPayment fault c w).2 = payments w
  ∧ (handlers.QueryParam c "reference" = "" →
     handlers.GetPaymentByReference fault c w
     = (handlers.mkResponse handlers.StatusBadRequest
          (handlers.ErrorBody "Reference parameter is required"), w))
  ∧ payments (handlers.GetPaymentByReference fault c w).2 = payments w.
Proof.
  unfold handlers.GetPayment, handlers.GetPaymentByReference, GetPayment,
    GetPaymentByReference, GetByID, GetByReference, bind, ret, emit, rows.
  split; [| split; [| split]].
  - destruct (uuid_Parse _) as [id |]; [| done]. cbn.
    destruct fault; [by case_bool_decide |].
    destruct (payments w !! id); [done |]. by case_bool_decide.
  - destruct (uuid_Parse _) as [id |]; [| done]. cbn.
    destruct fault; [by case_bool_decide |].
    destruct (payments w !! id); [done |]. by case_bool_decide.
  - intros ->. by rewrite bool_decide_eq_true_2.
  - case_bool_decide; [done |]. cbn.
    destruct fault; [by case_bool_decide |].
    destruct (row_with_reference _ _); [done |]. by case_bool_decide.
Qed.

(** X23. A currency is valid exactly when it has a symbol, and the
    response of a payment that [CreatePayment] returned shows the symbol of
    ETB or of USD, the state PENDING, the id and the creation time given to
    the call. *)
Theorem created_payment_response env req w p :
  (CreatePayment env req w).1 = Ok p →
  (∀ c, Currency_IsValid c = true ↔ Currency_GetSymbol c ≠ "")
  ∧ (PaymentResponse.CurrencySymbol (ToResponse p) = "Br"
     ∨ PaymentResponse.CurrencySymbol (ToResponse p) = "$")
  ∧ PaymentResponse.Status (ToResponse p) = StatusPending
  ∧ PaymentResponse.ID (ToResponse p) = new_id env
  ∧ PaymentResponse.CreatedAt (ToResponse p) = now env
  ∧ PaymentResponse.CreatedAtET (ToResponse p)
    = time_Format time_RFC3339 (now env + 10800000000000).
Proof.
  intros Hok. split.
  { intros c. unfold Currency_IsValid, Currency_GetSymbol.
    repeat case_bool_decide; cbn; split; done. }
  revert Hok. rewrite CreatePayment_unfold.
  destruct (CreatePaymentRequest.Validate req) as [e |] eqn:Hvalid; [done |].
  cbn -[Create PublishPaymentCreated].
  destruct (lookup_fault env); [done |].
  destruct (row_with_reference _ _); [done |].
  destruct (Create _ _ _) as [[e |] w1]; [done |].
  intros [= <-]. cbn. split; [| done].
  revert Hvalid. unfold CreatePaymentRequest.Validate, Currency_IsValid,
    Currency_GetSymbol.
  destruct (SFleb _ _); [done |].
  repeat case_bool_decide; cbn; try done; auto.
Qed.

End HandlersMore.

Lemma ListPayments_handler_never_has_more_witness :
  let c := samples.request "" ""
             (<["page" := "1"]> (<["limit" := "1"]> ∅)) in
  match (handlers.ListPayments samples.small_scan c samples.small_world).1 with
  | handlers.mkResponse code
      (handlers.ListBody responses total page limit has_more) =>
    code = handlers.StatusOK
    ∧ has_more = false
    ∧ page = (strconv_Atoi (handlers.QueryParam c "page")).1
    ∧ limit = (strconv_Atoi (handlers.QueryParam c "limit")).1
    ∧ total = Z.of_nat (length responses)
    ∧ total ≤ limit
  | handlers.mkResponse code (handlers.ErrorBody _) =>
    code = handlers.StatusInternalServerError
  | _ => False
  end.
Proof.
  apply (ListPayments_handler_never_has_more (H0 := samples.plain_library)
           samples.small_scan
           (samples.request "" "" (<["page" := "1"]> (<["limit" := "1"]> ∅)))
           samples.small_world).
  - by vm_compute.
  - split; by vm_compute.
  - by vm_compute.
Defined.

Lemma ListPayments_handler_defaults_witness :
  match (ListPayments samples.small_scan 1 20 samples.small_world).1 with
  | Ok (ps, total) =>
    (handlers.ListPayments samples.small_scan (samples.request "" "" ∅)
       samples.small_world).1
    = handlers.mkResponse handlers.StatusOK
        (handlers.ListBody (ToResponse <$> ps) total 0 0
           (bool_decide (ps ≠ [])))
    ∧ total ≤ 20
  | Err _ =>
    (handlers.ListPayments samples.small_scan (samples.request "" "" ∅)
       samples.small_world).1
    = handlers.mkResponse handlers.StatusInternalServerError
        (handlers.ErrorBody "Failed to list payments")
  end.
Proof.
  apply (ListPayments_handler_defaults (H0 := samples.plain_library)
           samples.small_scan (samples.request "" "" ∅) samples.small_world);
    reflexivity.
Defined.

Lemma created_payment_response_witness :
  PaymentResponse.CurrencySymbol
    (ToResponse (new_payment (samples.quiet_create 11%N) samples.fresh_request))
  = "Br"
  ∨ PaymentResponse.CurrencySymbol
      (ToResponse (new_payment (samples.quiet_create 11%N)
                     samples.fresh_request))
    = "$".
Proof.
  destruct (created_payment_response
              (H := samples.binary_json) (H0 := samples.plain_library)
              (samples.quiet_create 11%N) samples.fresh_request
              samples.small_world
              (new_payment (samples.quiet_create 11%N) samples.fresh_request))
    as (_ & Hsymbol & _); [reflexivity | exact Hsymbol].
Defined.

(** ** What creation adds and what it does not *)

Section CreationMore.
Context `{JSON}.

(** X24. A call of [CreatePayment] that returns an error has inserted no
    payment and published no task: the table and both queues are as they
    were. The error is one of [Validate], [ErrPaymentAlreadyExists] or
    [ErrDatabase]. *)
Theorem CreatePayment_error_creates_nothing env req w e :
  (CreatePayment env req w).1 = Err e →
  payments (CreatePayment env req w).2 = payments w
  ∧ live (CreatePayment env req w).2 = live w
  ∧ dead (CreatePayment env req w).2 = dead w
  ∧ (CreatePaymentRequest.Validate req = Some e
     ∨ e = ErrPaymentAlreadyExists ∨ e = ErrDatabase).
Proof.
  intros He.
  assert (Hclass : CreatePaymentRequest.Validate req = Some e
                   ∨ e = ErrPaymentAlreadyExists ∨ e = ErrDatabase).
  { destruct (CreatePayment_errors env req w e He) as [[? _] | (_ & ? & _)];
      auto. }
  revert He. rewrite CreatePayment_unfold.
  destruct (CreatePaymentRequest.Validate req) as [e' |]; [done |].
  cbn -[Create PublishPaymentCreated].
  destruct (lookup_fault env); [done |].
  destruct (row_with_reference _ _) eqn:Hrow; [done |].
  rewrite Create_unfold. cbn -[PublishPaymentCreated].
  destruct (insert_fault env); [done |].
  rewrite Hrow. by destruct (payments w !! new_id env).
Qed.

Lemma same_payments_size w w' :
  same_payments w w' → size (payments w') = size (payments w).
Proof.
  intros Hsame. rewrite <- !size_dom. f_equal. apply set_eq. intros id.
  rewrite !elem_of_dom. specialize (Hsame id).
  destruct (payments w !! id), (payments w' !! id); try done;
    split; intros [? ?]; done.
Qed.

(** X25. When the store answers, [Count] is the number of payments of the
    table and changes nothing; an insert that succeeds raises it by one,
    and no run of the worker changes it. *)
Theorem Count_follows_the_table p w envs :
  (Create false p w).1 = None →
  Count false w = ((Z.of_nat (size (payments w)), None), w)
  ∧ (Count false (Create false p w).2).1.1 = (Count false w).1.1 + 1
  ∧ (Count false (worker envs w).2).1 = (Count false w).1.
Proof.
  intros Hcreate. unfold Count, bind, ret, rows. cbn.
  split; [done |]. split.
  - revert Hcreate. rewrite Create_unfold. cbn.
    destruct (row_with_reference _ _); [done |].
    destruct (payments w !! Payment.ID p) eqn:Hfresh; [done |].
    intros _. cbn. rewrite map_size_insert_None by done. lia.
  - by rewrite (same_payments_size _ _ (worker_same_payments envs w)).
Qed.

End CreationMore.

Lemma CreatePayment_error_creates_nothing_witness :
  payments (CreatePayment (samples.quiet_create 11%N) samples.small_request
              samples.small_world).2 = payments samples.small_world
  ∧ live (CreatePayment (samples.quiet_create 11%N) samples.small_request
            samples.small_world).2 = live samples.small_world
  ∧ dead (CreatePayment (samples.quiet_create 11%N) samples.small_request
            samples.small_world).2 = dead samples.small_world
  ∧ (CreatePaymentRequest.Validate samples.small_request
     = Some ErrPaymentAlreadyExists
     ∨ ErrPaymentAlreadyExists = ErrPaymentAlreadyExists
     ∨ ErrPaymentAlreadyExists = ErrDatabase).
Proof.
  apply (CreatePayment_error_creates_nothing (H := samples.binary_json)
           (samples.quiet_create 11%N) samples.small_request
           samples.small_world ErrPaymentAlreadyExists).
  reflexivity.
Defined.

Lemma Count_follows_the_table_witness :
  Count false samples.small_world
  = ((Z.of_nat (size (payments samples.small_world)), None),
     samples.small_world)
  ∧ (Count false
       (Create false
          (new_payment (samples.quiet_create 11%N) samples.fresh_request)
          samples.small_world).2).1.1
    = (Count false samples.small_world).1.1 + 1
  ∧ (Count false (worker [samples.calm] samples.small_world).2).1
    = (Count false samples.small_world).1.
Proof.
  apply (Count_follows_the_table (H := samples.binary_json)
           (new_payment (samples.quiet_create 11%N) samples.fresh_request)
           samples.small_world [samples.calm]).
  reflexivity.
Defined.
